(** * NUBAN check-digit engine and bank registry of ng-bank-account-validator

    A shallow embedding of the static methods of [class Nuban]
    (generateSeed, validateNubanSerialCode, generateCheckDigit,
    isPossibleNubanBank, getPossibleNubanBanks), of the constants they use
    and of the weighted bank table, followed by the properties the
    specification states about them.

    Conventions of the embedding.
    - A JavaScript string is a [string]: one [ascii] per UTF-16 code unit,
      for strings whose code units are below 256.  Account numbers, serials
      and bank codes are strings of ASCII digits.
    - A JavaScript number is a [number]: an integer or NaN.  Every number the
      engine computes is NaN or an integer far below 2^53 (at most 63 times
      the length of a string), so double arithmetic on them is exact.
    - A thrown exception is the [Throw] completion.
    - [Nuban.banks] and [Nuban.weightedBanks] are static fields of the class:
      they are the state [Statics] that every static method runs in.
    - An async method is an [Async] computation: it settles, fulfilled or
      rejected, and records the requests it hands to fetch; what fetch
      answers is a parameter, the network.

    The provider side (validateNuban, validateBankCode, validateApiResponse,
    paystackQuery, flutterwaveQuery, validateAccount and
    formatFlutterwaveCardBinResponse) is embedded after the engine. *)

From Stdlib Require Import ZArith List String Ascii Bool Lia DecimalString.
Import ListNotations.
Local Open Scope string_scope.
Local Open Scope Z_scope.

(** ** The fragment of JavaScript the engine uses *)

Module JS.

(** Numbers: the integers and NaN. *)
Inductive number : Type :=
| Num (z : Z)
| NaN.

Definition add (a b : number) : number :=
  match a, b with
  | Num x, Num y => Num (x + y)
  | _, _ => NaN
  end.

Definition sub (a b : number) : number :=
  match a, b with
  | Num x, Num y => Num (x - y)
  | _, _ => NaN
  end.

Definition mul (a b : number) : number :=
  match a, b with
  | Num x, Num y => Num (x * y)
  | _, _ => NaN
  end.

(** [a % b]: the remainder has the sign of the dividend; [a % 0] is NaN. *)
Definition rem (a b : number) : number :=
  match a, b with
  | Num x, Num y => if y =? 0 then NaN else Num (Z.rem x y)
  | _, _ => NaN
  end.

(** [a === b] on numbers: NaN is different from everything, itself included. *)
Definition strict_eq (a b : number) : bool :=
  match a, b with
  | Num x, Num y => x =? y
  | _, _ => false
  end.

(** [String(n)], the conversion [+] applies to a number next to a string:
    the decimal form, for NaN and the integers of magnitude below 10^21. *)
Definition Number_toString (n : number) : string :=
  match n with
  | Num z => NilZero.string_of_int (Z.to_int z)
  | NaN => "NaN"
  end.

(** Truthiness of a string and of an array index. *)
Definition truthy_string (s : string) : bool :=
  match s with
  | EmptyString => false
  | String _ _ => true
  end.

Definition truthy_nat (n : nat) : bool := negb (Nat.eqb n 0).

Definition is_digit (c : ascii) : bool :=
  (Nat.leb 48 (nat_of_ascii c)) && (Nat.leb (nat_of_ascii c) 57).

(** White space and line terminators among the code units below 256:
    TAB, LF, VT, FF, CR, SP and NBSP. *)
Definition is_white_space (c : ascii) : bool :=
  let n := nat_of_ascii c in
  (Nat.leb 9 n && Nat.leb n 13) || Nat.eqb n 32 || Nat.eqb n 160.

(** [Number(s)] for a string [s] of one code unit [c]: a digit is its value,
    a blank is 0 (the string trims to the empty string), the rest is NaN. *)
Definition Number_of_char (c : ascii) : number :=
  if is_digit c then Num (Z.of_nat (nat_of_ascii c) - 48)
  else if is_white_space c then Num 0
  else NaN.

(** [Number(s[i])]: [s[i]] is a one code unit string, or undefined when [i]
    is out of range, and [Number(undefined)] is NaN. *)
Definition Number_of_index (x : option ascii) : number :=
  match x with
  | Some c => Number_of_char c
  | None => NaN
  end.

(** [arr[i]] used as an operand of [*]: undefined becomes NaN. *)
Definition operand (x : option number) : number :=
  match x with
  | Some n => n
  | None => NaN
  end.

(** [s.split("")]: the code units of [s], each a string of length one. *)
Definition split (s : string) : list ascii := list_ascii_of_string s.

Fixpoint repeat_string (fill : string) (count : nat) : string :=
  match count with
  | O => ""
  | S k => fill ++ repeat_string fill k
  end.

(** [s.padStart(targetLength, fill)]. *)
Definition padStart (s : string) (targetLength : nat) (fill : string) : string :=
  let len := String.length s in
  if Nat.leb targetLength len || negb (truthy_string fill) then s
  else
    let fillLen := (targetLength - len)%nat in
    substring 0 fillLen (repeat_string fill fillLen) ++ s.

(** [s.substring(start, end)]: the arguments are swapped when out of order
    and clamped to the length of [s]. *)
Definition String_substring (s : string) (start end_ : nat) : string :=
  let lo := Nat.min start end_ in
  let hi := Nat.max start end_ in
  substring lo (hi - lo) s.

(** [Array.from({ length }, (_, i) => f(i))]. *)
Definition Array_from {A : Type} (length : nat) (f : nat -> A) : list A :=
  map f (seq 0 length).

(** [arr.reduce((acc, x, index) => f(acc, x, index), init)]. *)
Fixpoint reduce_from {A B : Type} (f : B -> A -> nat -> B)
         (arr : list A) (index : nat) (acc : B) : B :=
  match arr with
  | [] => acc
  | x :: rest => reduce_from f rest (S index) (f acc x index)
  end.

Definition reduce {A B : Type} (f : B -> A -> nat -> B) (arr : list A) (init : B) : B :=
  reduce_from f arr 0%nat init.

(** Exceptions: [new Error(message)]. *)
Inductive exn : Type :=
| Error (message : string).

Inductive completion (A : Type) : Type :=
| Normal (a : A)
| Throw (e : exn).

Arguments Normal {A} a.
Arguments Throw {A} e.

End JS.
Import JS.

Declare Scope js_scope.
Delimit Scope js_scope with js.
Infix "+" := JS.add : js_scope.
Infix "-" := JS.sub : js_scope.
Infix "*" := JS.mul : js_scope.
Infix "mod" := JS.rem : js_scope.
Infix "===" := JS.strict_eq (at level 70, no associativity) : js_scope.

(** ** types.ts *)

Record Bank : Type := mkBank {
  id : Z;
  slug : string;
  name : string;
  code : string;            (* New 6 Digit Codes. *)
  oldCode : option string;  (* Old 3 Digit Codes. *)
  weight : option Z
}.

Inductive BankProperty : Type :=
| SLUG
| CODE
| OLD_CODE.

(** ** constants *)

Definition NUBAN_LENGTH : nat := 10.
Definition NUBAN_SERIAL_CODE_LENGTH : nat := 9.

Definition WEIGHTED_NIGERIAN_BANKS : list Bank :=
  [
    mkBank 1 "access_bank" "ACCESS BANK" "000014" (Some "044") (Some 1);
    mkBank 2 "access_diamond_bank" "ACCESS(DIAMOND) BANK" "000014" (Some "063") (Some 1);
    mkBank 3 "citi_bank" "CITI BANK" "000009" (Some "023") (Some 1);
    mkBank 4 "ecobank" "ECOBANK NIGERIA" "000010" (Some "050") (Some 1);
    mkBank 5 "enterprise_bank" "ENTERPRISE BANK" "000019" (Some "084") (Some 1);
    mkBank 6 "fidelity_bank" "FIDELITY BANK" "000007" (Some "070") (Some 1);
    mkBank 7 "first_bank_of_nigeria" "FIRST BANK OF NIGERIA" "000016" (Some "011") (Some 1);
    mkBank 8 "first_city_monument_bank" "FIRST CITY MONUMENT BANK" "000003" (Some "214") (Some 1);
    mkBank 9 "globus_bank" "GLOBUS BANK" "000027" (Some "103") (Some 1);
    mkBank 10 "guarantee_trust_bank" "GUARANTY TRUST BANK" "000013" (Some "058") (Some 1);
    mkBank 11 "heritage_bank" "HERITAGE BANK" "000020" (Some "030") (Some 1);
    mkBank 12 "jaiz_bank" "JAIZ BANK" "000006" (Some "301") (Some 1);
    mkBank 13 "keystone_bank" "KEYSTONE BANK" "000002" (Some "082") (Some 1);
    mkBank 14 "lotus_bank" "LOTUS BANK" "000029" (Some "303") (Some 1);
    mkBank 15 "mainstreet_microfinance_bank" "MAINSTREET MICROFINANCE BANK" "090171" (Some "014") (Some 1);
    mkBank 16 "optimus_bank" "OPTIMUS BANK" "000036" (Some "107") (Some 1);
    mkBank 17 "parallex_bank" "PARALLEX BANK" "000030" (Some "104") (Some 1);
    mkBank 18 "polaris_bank" "POLARIS BANK" "000008" (Some "076") (Some 1);
    mkBank 19 "premium_trust_bank" "PREMIUM TRUST  BANK" "000031" (Some "105") (Some 1);
    mkBank 20 "providus_bank" "PROVIDUS BANK" "000023" (Some "101") (Some 1);
    mkBank 21 "signature_bank" "SIGNATURE BANK" "000034" (Some "106") (Some 1);
    mkBank 22 "stanbic_ibtc_bank" "STANBIC IBTC BANK" "000012" (Some "221") (Some 1);
    mkBank 23 "standard_chartered_bank" "STANDARD CHARTERED BANK" "000021" (Some "068") (Some 1);
    mkBank 24 "sterling_bank" "STERLING BANK" "000001" (Some "232") (Some 1);
    mkBank 25 "suntrust_bank" "SUNTRUST" "000022" (Some "100") (Some 1);
    mkBank 26 "titan_trust_bank" "TITAN TRUST BANK" "000025" (Some "102") (Some 1);
    mkBank 27 "union_bank" "UNION BANK" "000018" (Some "032") (Some 1);
    mkBank 28 "united_bank_for_africa" "UNITED BANK FOR AFRICA" "000004" (Some "033") (Some 1);
    mkBank 29 "unity_bank" "UNITY BANK" "000011" (Some "215") (Some 1);
    mkBank 30 "wema_bank" "WEMA BANK" "000017" (Some "035") (Some 1);
    mkBank 31 "zenith_bank" "ZENITH BANK" "000015" (Some "057") (Some 1)
  ].

(** ** class Nuban: static state and the monad of its static methods *)

(** [static banks: Bank[] = NIGERIAN_BANKS] and
    [static weightedBanks: Bank[] = WEIGHTED_NIGERIAN_BANKS]. *)
Record Statics : Type := mkStatics {
  Nuban_banks : list Bank;
  Nuban_weightedBanks : list Bank
}.

(** The table [NIGERIAN_BANKS] of constants/banks is not available: the
    initial state of the class takes it as a parameter. *)
Definition initialStatics (NIGERIAN_BANKS : list Bank) : Statics :=
  {| Nuban_banks := NIGERIAN_BANKS;
     Nuban_weightedBanks := WEIGHTED_NIGERIAN_BANKS |}.

(** A static method runs in the state of the class and either returns or
    throws. *)
Definition M (A : Type) : Type := Statics -> completion A * Statics.

Definition ret {A : Type} (a : A) : M A :=
  fun st => (Normal a, st).

Definition throw {A : Type} (e : exn) : M A :=
  fun st => (Throw e, st).

Definition bind {A B : Type} (m : M A) (k : A -> M B) : M B :=
  fun st =>
    match m st with
    | (Normal a, st') => k a st'
    | (Throw e, st') => (Throw e, st')
    end.

Definition readStatics : M Statics :=
  fun st => (Normal st, st).

Notation "x <- m ;; k" := (bind m (fun x => k))
  (at level 61, m at next level, right associativity).

(** [arr.filter(callback)] with a callback that may throw: the elements are
    visited in order and the first exception ends the traversal. *)
Fixpoint Array_filter {A : Type} (callback : A -> M bool) (arr : list A) : M (list A) :=
  match arr with
  | [] => ret []
  | x :: rest =>
      keep <- callback x ;;
      kept <- Array_filter callback rest ;;
      ret (if keep then x :: kept else kept)
  end.

(** ** class Nuban: the check-digit engine *)

(** The seed alternates 3 and 7 by the parity of the index (the example of
    its docstring, 3, 7, 3, 3, 7, 3, 3, 7, 3, has period three). *)
Definition generateSeed (length : nat) : M (list number) :=
  ret (Array_from length (fun i => if truthy_nat (i mod 2) then Num 7 else Num 3)).

Definition InvalidSerialLength : exn :=
  Error ("Nuban serial code should not be more than "
           ++ Number_toString (Num (Z.of_nat NUBAN_SERIAL_CODE_LENGTH))
           ++ " digits").

Definition validateNubanSerialCode (nubanSerialCode : string) : M bool :=
  if negb (truthy_string nubanSerialCode)
     || Nat.ltb NUBAN_SERIAL_CODE_LENGTH (String.length nubanSerialCode)
  then throw InvalidSerialLength
  else ret true.

Definition generateCheckDigit (nubanSerialCode bankCode : string) : M number :=
  _ <- validateNubanSerialCode nubanSerialCode ;;
  let paddedCode := padStart nubanSerialCode NUBAN_SERIAL_CODE_LENGTH "0" in
  let crypto := bankCode ++ paddedCode in
  seed <- generateSeed (String.length crypto) ;;
  let cryptoSum :=
    reduce (fun sum digit index =>
              (sum + operand (nth_error seed index) * Number_of_char digit)%js)
           (split crypto) (Num 0) in
  let modulo := (cryptoSum mod Num 10)%js in
  ret (Num 10 - modulo - Num 1)%js.

Definition isPossibleNubanBank (accountNumber bankCode : string) : M bool :=
  let nubanSerialCode := String_substring accountNumber 0 9 in
  checkDigit <- generateCheckDigit nubanSerialCode bankCode ;;
  ret (checkDigit === Number_of_index (String.get 9 accountNumber))%js.

(** [banks] is optional and defaults to [Nuban.banks]. *)
Definition getPossibleNubanBanks (accountNumber : string) (banks : option (list Bank))
  : M (list Bank) :=
  candidates <- match banks with
                | Some l => ret l
                | None => st <- readStatics ;; ret (Nuban_banks st)
                end ;;
  Array_filter (fun bank => isPossibleNubanBank accountNumber (code bank)) candidates.

(** ** class Nuban: the registry lookup *)

(** Modelled from the spec: the lookup [Nuban.getBank(value, property)].  The
    README lists it ([static getBank(value: string, property: BankProperty):
    Bank | undefined]) but its source is not available.  The
    specification: lookup by slug, canonical code or legacy code, returning
    the first matching record or not-found; lookup by legacy code searches
    the weighted list only, lookup by slug or canonical code the full list. *)
Definition hasProperty (property : BankProperty) (value : string) (bank : Bank) : bool :=
  match property with
  | SLUG => String.eqb (slug bank) value
  | CODE => String.eqb (code bank) value
  | OLD_CODE =>
      match oldCode bank with
      | Some legacy => String.eqb legacy value
      | None => false
      end
  end.

(** Modelled from the spec: the first record of [candidates] that matches, or
    not-found; this is the lookup over a given list. *)
Definition lookupBank (candidates : list Bank) (value : string) (property : BankProperty)
  : option Bank :=
  find (hasProperty property value) candidates.

(** Modelled from the spec: [Nuban.getBank], the lookup over the list that the
    property selects. *)
Definition getBank (value : string) (property : BankProperty) : M (option Bank) :=
  st <- readStatics ;;
  ret (lookupBank
         match property with
         | OLD_CODE => Nuban_weightedBanks st
         | SLUG | CODE => Nuban_banks st
         end
         value property).

(** ** The documented reference algorithm

    The six steps of the specification, written from its words on digit
    values, independently of the engine above. *)

Module Documented.

Definition digit_value (c : ascii) : Z := Z.of_nat (nat_of_ascii c) - 48.

Definition digits_of (s : string) : list Z :=
  map digit_value (list_ascii_of_string s).

(** Step 1: left-pad the serial with zeros to 9 digits. *)
Definition zero_pad (serial : string) : string :=
  string_of_list_ascii (repeat "0"%char (9 - String.length serial)) ++ serial.

(** Step 3: 3, 7, 3, 7, ... starting with 3 at position 0. *)
Fixpoint alternating (a b : Z) (n : nat) : list Z :=
  match n with
  | O => []
  | S k => a :: alternating b a k
  end.

(** Step 4: the sum of weight[i] * digit[i]. *)
Fixpoint weighted_sum (weights digits : list Z) : Z :=
  match weights, digits with
  | w :: ws, d :: ds => w * d + weighted_sum ws ds
  | _, _ => 0
  end.

Definition checkDigit (serial bankCode : string) : Z :=
  let digits := digits_of (bankCode ++ zero_pad serial) in   (* steps 1, 2 *)
  let weights := alternating 3 7 (List.length digits) in     (* step 3 *)
  let sum := weighted_sum weights digits in                  (* step 4 *)
  9 - sum mod 10.                                            (* steps 5, 6 *)

End Documented.

(** ** Digit strings *)

Definition all_digits (s : string) : bool :=
  forallb is_digit (list_ascii_of_string s).

(** The returned sequence keeps elements of the input in their order. *)
Inductive Subsequence {A : Type} : list A -> list A -> Prop :=
| Subsequence_nil : Subsequence [] []
| Subsequence_keep x l1 l2 : Subsequence l1 l2 -> Subsequence (x :: l1) (x :: l2)
| Subsequence_drop x l1 l2 : Subsequence l1 l2 -> Subsequence l1 (x :: l2).

(** A sample full list for concrete runs: the records of the weighted table
    in the shape of the full list, without legacy code and weight. *)
Definition sampleRegistry : list Bank :=
  map (fun b => mkBank (id b) (slug b) (name b) (code b) None None)
      WEIGHTED_NIGERIAN_BANKS.

Definition sampleStatics : Statics := initialStatics sampleRegistry.

(** The round trip of the specification:
    [isPossibleNubanBank(S + generateCheckDigit(S, B), B)]. *)
Definition roundTrip (S B : string) : M bool :=
  checkDigit <- generateCheckDigit S B ;;
  isPossibleNubanBank (S ++ Number_toString checkDigit) B.

(** ** The provider side: constants, instances and format checks *)

Inductive PaymentProvider : Type :=
| PAYSTACK
| FLUTTERWAVE.

(** The members of the enum are strings at run time. *)
Definition PaymentProvider_value (provider : PaymentProvider) : string :=
  match provider with
  | PAYSTACK => "PAYSTACK"
  | FLUTTERWAVE => "FLUTTERWAVE"
  end.

Definition PAYSTACK_VALIDATION_URL : string := "https://api.paystack.co/bank/resolve".
Definition FLUTTERWAVE_VALIDATION_URL : string :=
  "https://api.flutterwave.com/v3/accounts/resolve".

Definition VALIDATION_URL (provider : PaymentProvider) : string :=
  match provider with
  | PAYSTACK => PAYSTACK_VALIDATION_URL
  | FLUTTERWAVE => FLUTTERWAVE_VALIDATION_URL
  end.

(** An instance of the class: its two private fields. *)
Record Nuban : Type := mkNuban {
  apiKey : string;
  paymentProvider : PaymentProvider
}.

Definition constructor (apiKey : string) (paymentProvider : PaymentProvider)
  : completion Nuban :=
  if negb (truthy_string apiKey)
     || negb (truthy_string (PaymentProvider_value paymentProvider))
  then Throw (Error "API Key and Payment Provider are required")
  else Normal (mkNuban apiKey paymentProvider).

(** [/^\d+$/.test(s)]: [s] is a non-empty string of digits 0 to 9. *)
Definition digits_test (s : string) : bool :=
  truthy_string s && all_digits s.

Definition validateNuban (this : Nuban) (accountNumber : string) : bool :=
  Nat.eqb (String.length accountNumber) NUBAN_LENGTH && digits_test accountNumber.

Definition validateBankCode (this : Nuban) (bankCode : string) : bool :=
  if negb (truthy_nat (String.length bankCode)) || negb (digits_test bankCode)
  then false
  else
    let provider := PaymentProvider_value (paymentProvider this) in
    if String.eqb provider (PaymentProvider_value PAYSTACK)
    then Nat.eqb (String.length bankCode) 3
    else if String.eqb provider (PaymentProvider_value FLUTTERWAVE)
    then Nat.eqb (String.length bankCode) 3 || Nat.eqb (String.length bankCode) 6
    else false.

(** ** JSON values, promises and fetch *)

(** A value as [response.json()] gives it. *)
#[warnings="-register-all"]
Inductive json : Type :=
| JNull
| JBoolean (b : bool)
| JNumber (literal : string)
| JString (s : string)
| JArray (items : list json)
| JObject (members : list (string * json)).

(** [key in value] for an object built by JSON.parse or by an object literal. *)
Definition has_member (key : string) (members : list (string * json)) : bool :=
  existsb (fun member => String.eqb (fst member) key) members.

(** What a promise is rejected with: an instance of Error, or another value,
    known by what [String(value)] gives. *)
Inductive thrown : Type :=
| IsError (e : exn)
| NotError (rendering : string).

(** [error instanceof Error ? error.message : String(error)]. *)
Definition errorMessage (error : thrown) : string :=
  match error with
  | IsError (Error message) => message
  | NotError rendering => rendering
  end.

Inductive settled (A : Type) : Type :=
| Fulfilled (a : A)
| Rejected (reason : thrown).

Arguments Fulfilled {A} a.
Arguments Rejected {A} reason.

(** The argument of fetch.  The body, [JSON.stringify(v)], is kept as the
    value [v] it is the text of. *)
Record Request : Type := mkRequest {
  url : string;
  method : string;
  headers : list (string * string);
  body : option json
}.

(** What the engine reads of a response: [ok], [status] and the outcome of
    [json()]. *)
Record Response : Type := mkResponse {
  ok : bool;
  status : Z;
  json_body : settled json
}.

(** An async method runs against the requests sent so far and settles. *)
Definition Async (A : Type) : Type := list Request -> settled A * list Request.

Definition resolve {A : Type} (a : A) : Async A :=
  fun sent => (Fulfilled a, sent).

Definition reject {A : Type} (reason : thrown) : Async A :=
  fun sent => (Rejected reason, sent).

Definition await {A B : Type} (m : Async A) (k : A -> Async B) : Async B :=
  fun sent =>
    match m sent with
    | (Fulfilled a, sent') => k a sent'
    | (Rejected reason, sent') => (Rejected reason, sent')
    end.

Definition try_catch {A : Type} (m : Async A) (handler : thrown -> Async A) : Async A :=
  fun sent =>
    match m sent with
    | (Fulfilled a, sent') => (Fulfilled a, sent')
    | (Rejected reason, sent') => handler reason sent'
    end.

(** A synchronous return or throw inside an async method. *)
Definition settle {A : Type} (c : completion A) : Async A :=
  match c with
  | Normal a => resolve a
  | Throw e => reject (IsError e)
  end.

Definition awaited {A : Type} (s : settled A) : Async A :=
  fun sent => (s, sent).

Notation "x <~ m ;; k" := (await m (fun x => k))
  (at level 61, m at next level, right associativity).

(** [{ status: false, message }]. *)
Definition failure (message : string) : json :=
  JObject [("status", JBoolean false); ("message", JString message)].

Definition validateApiResponse (response : json) : completion json :=
  match response with
  | JObject members =>
      if has_member "status" members && has_member "message" members
      then Normal response
      else Throw (Error "Invalid API response format")
  | JArray _ | JNull | JBoolean _ | JNumber _ | JString _ =>
      Throw (Error "Invalid API response format")
  end.

Section Provider.

(** The network: what fetch settles to for a request, given the requests
    sent before it. *)
Variable network : list Request -> Request -> settled Response.

Definition fetch (request : Request) : Async Response :=
  fun sent => (network sent request, (sent ++ [request])%list).

Definition paystackQuery (this : Nuban) (accountNumber bankCode : string) : Async json :=
  let url := VALIDATION_URL (paymentProvider this)
             ++ "?account_number=" ++ accountNumber
             ++ "&bank_code=" ++ bankCode in
  try_catch
    (response <~ fetch {| url := url;
                          method := "GET";
                          headers := [("Authorization", "Bearer " ++ apiKey this);
                                      ("Content-Type", "application/json")];
                          body := None |} ;;
     if negb (ok response)
     then reject (IsError (Error ("HTTP error! status: "
                                    ++ Number_toString (Num (status response)))))
     else
       data <~ awaited (json_body response) ;;
       settle (validateApiResponse data))
    (fun error => reject (IsError (Error ("Paystack API error: " ++ errorMessage error)))).

Definition flutterwaveQuery (this : Nuban) (accountNumber bankCode : string) : Async json :=
  let url := VALIDATION_URL (paymentProvider this) in
  try_catch
    (response <~ fetch {| url := url;
                          method := "POST";
                          headers := [("Authorization", "Bearer " ++ apiKey this);
                                      ("Content-Type", "application/json")];
                          body := Some (JObject [("account_number", JString accountNumber);
                                                 ("account_bank", JString bankCode)]) |} ;;
     if negb (ok response)
     then reject (IsError (Error ("HTTP error! status: "
                                    ++ Number_toString (Num (status response)))))
     else
       data <~ awaited (json_body response) ;;
       settle (validateApiResponse data))
    (fun error => reject (IsError (Error ("Flutterwave API error: " ++ errorMessage error)))).

(** The object literal that maps each provider to its query method, read at
    the key [this.paymentProvider]. *)
Definition queryMethods : list (string * (Nuban -> string -> string -> Async json)) :=
  [(PaymentProvider_value PAYSTACK, paystackQuery);
   (PaymentProvider_value FLUTTERWAVE, flutterwaveQuery)].

Fixpoint property_of {A : Type} (object : list (string * A)) (key : string) : option A :=
  match object with
  | [] => None
  | (k, v) :: rest => if String.eqb k key then Some v else property_of rest key
  end.

Definition validateAccount (this : Nuban) (accountNumber bankCode : string) : Async json :=
  try_catch
    (if negb (validateNuban this accountNumber)
     then resolve (failure "Invalid account number, digits should be exactly 10")
     else if negb (validateBankCode this bankCode)
     then resolve (failure ("Invalid bank code for payment provider - "
                              ++ PaymentProvider_value (paymentProvider this)))
     else
       match property_of queryMethods (PaymentProvider_value (paymentProvider this)) with
       | None => resolve (failure "Unsupported payment provider")
       | Some queryMethod => queryMethod this accountNumber bankCode
       end)
    (fun error => resolve (failure ("Account validation failed - " ++ errorMessage error))).

End Provider.

(** ** Card BIN responses of Flutterwave *)

Inductive CardType : Type :=
| DEBIT
| CREDIT.

Record FlutterwaveCardData : Type := mkFlutterwaveCardData {
  issuing_country : string;
  fw_bin : string;
  fw_card_type : CardType;
  issuer_info : string
}.

Record FlutterwaveCardResponse : Type := mkFlutterwaveCardResponse {
  fw_status : bool;
  fw_message : string;
  fw_data : FlutterwaveCardData
}.

(** The [data] that formatFlutterwaveCardBinResponse builds; [country_code]
    is undefined when the country has one word. *)
Record CardBinData : Type := mkCardBinData {
  bin : string;
  country_code : option string;
  country_name : string;
  card_type : CardType;
  brand : string;
  bank : string
}.

Record CardBinResponse : Type := mkCardBinResponse {
  cb_status : bool;
  cb_message : string;
  cb_data : CardBinData
}.

(** [s.split(sep)] for a separator of one code unit: the pieces between the
    separators, of which there is always at least one. *)
Fixpoint String_split (sep : ascii) (s : string) : list string :=
  match s with
  | EmptyString => [EmptyString]
  | String c rest =>
      if Ascii.eqb c sep then EmptyString :: String_split sep rest
      else
        match String_split sep rest with
        | piece :: pieces => String c piece :: pieces
        | [] => [String c EmptyString]
        end
  end.

(** [arr.join(sep)]. *)
Fixpoint Array_join (sep : string) (arr : list string) : string :=
  match arr with
  | [] => ""
  | [piece] => piece
  | piece :: rest => piece ++ sep ++ Array_join sep rest
  end.

Definition formatFlutterwaveCardBinResponse (response : FlutterwaveCardResponse)
  : CardBinResponse :=
  let countryParts := String_split " "%char (issuing_country (fw_data response)) in
  let country_name := nth 0 countryParts "" in
  let country_code := nth_error countryParts 1 in
  let issuerParts := String_split " "%char (issuer_info (fw_data response)) in
  let brand := nth 0 issuerParts "" in
  let bankParts := tl issuerParts in
  {| cb_status := fw_status response;
     cb_message := fw_message response;
     cb_data := {| bin := fw_bin (fw_data response);
                   country_code := country_code;
                   country_name := country_name;
                   card_type := fw_card_type (fw_data response);
                   brand := brand;
                   bank := Array_join " " bankParts |} |}.

(** Whether the code unit [c] occurs in [s]. *)
Definition has_char (c : ascii) (s : string) : bool :=
  existsb (Ascii.eqb c) (list_ascii_of_string s).

(** Whether [getPossibleNubanBanks(accountNumber, ...)] keeps [bank]. *)
Definition keeps (accountNumber : string) (st : Statics) (bank : Bank) : bool :=
  match fst (isPossibleNubanBank accountNumber (code bank) st) with
  | Normal possible => possible
  | Throw _ => false
  end.

(** * Properties *)

(** ** Strings *)

Lemma length_append (s t : string) :
  String.length (s ++ t) = (String.length s + String.length t)%nat.
Proof.
  induction s as [|c s IH]; simpl; [reflexivity | now rewrite IH].
Qed.

Lemma list_ascii_of_string_append (s t : string) :
  list_ascii_of_string (s ++ t) = (list_ascii_of_string s ++ list_ascii_of_string t)%list.
Proof.
  induction s as [|c s IH]; simpl; [reflexivity | now rewrite IH].
Qed.

Lemma length_list_ascii_of_string (s : string) :
  List.length (list_ascii_of_string s) = String.length s.
Proof.
  induction s as [|c s IH]; simpl; [reflexivity | now rewrite IH].
Qed.

Lemma substring_prefix (s t : string) :
  substring 0 (String.length s) (s ++ t) = s.
Proof.
  induction s as [|c s IH]; simpl.
  - now destruct t.
  - now rewrite IH.
Qed.

Lemma get_after_prefix (s t : string) :
  String.get (String.length s) (s ++ t) = String.get 0 t.
Proof.
  induction s as [|c s IH]; simpl; [reflexivity | exact IH].
Qed.

Lemma substring_length (s : string) (n : nat) :
  (n <= String.length s)%nat -> String.length (substring 0 n s) = n.
Proof.
  revert s; induction n as [|n IH]; intros [|c s] H; simpl in *;
    try reflexivity; try lia.
  rewrite IH; lia.
Qed.

Lemma all_digits_append (s t : string) :
  all_digits (s ++ t) = all_digits s && all_digits t.
Proof.
  unfold all_digits. now rewrite list_ascii_of_string_append, forallb_app.
Qed.

Lemma all_digits_substring (s : string) (n : nat) :
  all_digits s = true -> all_digits (substring 0 n s) = true.
Proof.
  unfold all_digits.
  revert s; induction n as [|n IH]; intros [|c s] H; simpl in *; try reflexivity.
  apply andb_true_iff in H as [Hc Hs]. rewrite Hc. now apply IH.
Qed.

(** ** padStart against the documented zero padding *)

Lemma substring_repeat_zero (k : nat) :
  substring 0 k (repeat_string "0" k) = string_of_list_ascii (repeat "0"%char k).
Proof.
  assert (G : forall m s, substring 0 m (repeat_string "0" m ++ s)
                          = string_of_list_ascii (repeat "0"%char m)).
  { induction m as [|m IH]; intros s; simpl.
    - now destruct s.
    - now rewrite IH. }
  specialize (G k ""). revert G.
  replace (repeat_string "0" k ++ "") with (repeat_string "0" k); [trivial|].
  generalize (repeat_string "0" k) as r.
  induction r as [|c r IH]; simpl; [reflexivity | now rewrite <- IH].
Qed.

Lemma padStart_zero (s : string) :
  padStart s NUBAN_SERIAL_CODE_LENGTH "0" = Documented.zero_pad s.
Proof.
  unfold padStart, Documented.zero_pad, NUBAN_SERIAL_CODE_LENGTH.
  change (negb (truthy_string "0")) with false. rewrite orb_false_r.
  destruct (Nat.leb_spec 9 (String.length s)) as [H|H].
  - replace (9 - String.length s)%nat with 0%nat by lia. reflexivity.
  - now rewrite substring_repeat_zero.
Qed.

Lemma all_digits_zero_pad (s : string) :
  all_digits s = true -> all_digits (Documented.zero_pad s) = true.
Proof.
  intros H. unfold Documented.zero_pad. rewrite all_digits_append, H, andb_true_r.
  unfold all_digits. rewrite list_ascii_of_string_of_list_ascii.
  induction (9 - String.length s)%nat as [|k IH]; simpl; [reflexivity | exact IH].
Qed.

Lemma length_zero_pad (s : string) :
  (String.length s <= 9)%nat -> String.length (Documented.zero_pad s) = 9%nat.
Proof.
  intros H. unfold Documented.zero_pad. rewrite length_append.
  rewrite <- length_list_ascii_of_string, list_ascii_of_string_of_list_ascii, repeat_length.
  lia.
Qed.

(** ** The seed and the weighted sum *)

Lemma mod2_even (i : nat) : truthy_nat (i mod 2) = negb (Nat.even i).
Proof.
  assert (G : truthy_nat (i mod 2) = negb (Nat.even i)
              /\ truthy_nat (S i mod 2) = negb (Nat.even (S i))).
  { induction i as [|i [IH1 IH2]]; [split; reflexivity|].
    split; [exact IH2|].
    replace (S (S i)) with (i + 1 * 2)%nat at 1 by lia.
    now rewrite Nat.Div0.mod_add. }
  exact (proj1 G).
Qed.

Lemma Array_from_nth {A : Type} (f : nat -> A) (length i : nat) :
  (i < length)%nat -> nth_error (Array_from length f) i = Some (f i).
Proof.
  intros H. unfold Array_from. rewrite nth_error_map, nth_error_seq.
  destruct (Nat.ltb_spec i length); [reflexivity | lia].
Qed.

Lemma Number_of_digit (c : ascii) :
  is_digit c = true -> Number_of_char c = Num (Documented.digit_value c).
Proof.
  intros H. unfold Number_of_char. now rewrite H.
Qed.

Lemma digit_value_range (c : ascii) :
  is_digit c = true -> 0 <= Documented.digit_value c <= 9.
Proof.
  unfold is_digit, Documented.digit_value. intros H.
  apply andb_true_iff in H as [H1 H2].
  apply Nat.leb_le in H1, H2. lia.
Qed.

Section Reduce.

Variable seed : list number.

Let step (sum : number) (digit : ascii) (index : nat) : number :=
  (sum + operand (nth_error seed index) * Number_of_char digit)%js.

(** The indexed reduction over digits, read against alternating weights. *)
Lemma reduce_from_weighted (l : list ascii) :
  forall (k : nat) (a b acc : Z),
    (forall i, (i < List.length l)%nat ->
               nth_error seed (k + i) = Some (Num (if Nat.even i then a else b))) ->
    forallb is_digit l = true ->
    reduce_from step l k (Num acc)
    = Num (acc + Documented.weighted_sum
                   (Documented.alternating a b (List.length l))
                   (map Documented.digit_value l)).
Proof.
  induction l as [|c l IH]; intros k a b acc Hseed Hdig; simpl.
  - now rewrite Z.add_0_r.
  - simpl in Hdig. apply andb_true_iff in Hdig as [Hc Hl].
    unfold step at 1.
    pose proof (Hseed 0%nat ltac:(simpl; lia)) as H0.
    rewrite Nat.add_0_r in H0. simpl in H0. rewrite H0.
    rewrite (Number_of_digit c Hc). simpl.
    rewrite (IH (S k) b a); [f_equal; lia | | exact Hl].
    intros i Hi.
    replace (S k + i)%nat with (k + S i)%nat by lia.
    rewrite (Hseed (S i)) by (simpl; lia).
    rewrite Nat.even_succ, <- Nat.negb_even.
    now destruct (Nat.even i).
Qed.

End Reduce.

Lemma weighted_sum_nonneg (l : list ascii) :
  forall a b, 0 <= a -> 0 <= b -> forallb is_digit l = true ->
  0 <= Documented.weighted_sum (Documented.alternating a b (List.length l))
                               (map Documented.digit_value l).
Proof.
  induction l as [|c l IH]; intros a b Ha Hb Hdig; simpl; [lia|].
  simpl in Hdig. apply andb_true_iff in Hdig as [Hc Hl].
  pose proof (digit_value_range c Hc). specialize (IH b a Hb Ha Hl). nia.
Qed.

(** ** validateNubanSerialCode *)

Lemma validate_accepts (s : string) (st : Statics) :
  s <> "" -> (String.length s <= 9)%nat ->
  validateNubanSerialCode s st = (Normal true, st).
Proof.
  intros Hne Hlen. unfold validateNubanSerialCode, NUBAN_SERIAL_CODE_LENGTH.
  destruct s as [|c s]; [congruence|]. simpl truthy_string. simpl negb.
  destruct (Nat.ltb_spec 9 (String.length (String c s))); [lia | reflexivity].
Qed.

Lemma validate_rejects (s : string) (st : Statics) :
  s = "" \/ (9 < String.length s)%nat ->
  validateNubanSerialCode s st = (Throw InvalidSerialLength, st).
Proof.
  intros [-> | Hlen]; [reflexivity|].
  unfold validateNubanSerialCode, NUBAN_SERIAL_CODE_LENGTH.
  destruct (Nat.ltb_spec 9 (String.length s)); [| lia].
  now rewrite orb_true_r.
Qed.

Lemma validate_cases (s : string) (st : Statics) :
  (s <> "" /\ (String.length s <= 9)%nat) \/ (s = "" \/ (9 < String.length s)%nat).
Proof.
  destruct s as [|c s]; [right; now left|].
  destruct (Nat.le_gt_cases (String.length (String c s)) 9);
    [left; split; [discriminate | assumption] | right; now right].
Qed.

(** ** generateCheckDigit *)

(** A rejected serial: the exception of the validation is the result. *)
Lemma generateCheckDigit_rejects (s b : string) (st : Statics) :
  s = "" \/ (9 < String.length s)%nat ->
  generateCheckDigit s b st = (Throw InvalidSerialLength, st).
Proof.
  intros H. unfold generateCheckDigit, bind.
  now rewrite (validate_rejects s st H).
Qed.

(** An accepted serial, whatever its characters: a number is returned. *)
Lemma generateCheckDigit_accepts (s b : string) (st : Statics) :
  s <> "" -> (String.length s <= 9)%nat ->
  exists n, generateCheckDigit s b st = (Normal n, st).
Proof.
  intros Hne Hlen. unfold generateCheckDigit, bind.
  rewrite (validate_accepts s st Hne Hlen). unfold generateSeed, ret.
  eexists; reflexivity.
Qed.

(** An accepted serial of digits and a bank code of digits: the documented
    value is returned. *)
Lemma generateCheckDigit_documented (s b : string) (st : Statics) :
  s <> "" -> (String.length s <= 9)%nat ->
  all_digits s = true -> all_digits b = true ->
  generateCheckDigit s b st = (Normal (Num (Documented.checkDigit s b)), st).
Proof.
  intros Hne Hlen Hs Hb. unfold generateCheckDigit, bind.
  rewrite (validate_accepts s st Hne Hlen). unfold generateSeed, ret.
  rewrite padStart_zero. unfold reduce, split, Documented.checkDigit.
  assert (Hd : forallb is_digit (list_ascii_of_string (b ++ Documented.zero_pad s)) = true).
  { change (all_digits (b ++ Documented.zero_pad s) = true).
    now rewrite all_digits_append, Hb, all_digits_zero_pad. }
  rewrite (reduce_from_weighted _ _ 0%nat 3 7 0).
  - unfold Documented.digits_of. rewrite length_map.
    set (sum := Documented.weighted_sum _ _).
    assert (0 <= sum) by (apply weighted_sum_nonneg; [lia | lia | exact Hd]).
    unfold JS.rem, JS.sub. change (10 =? 0) with false. cbv iota.
    rewrite Z.add_0_l, Z.rem_mod_nonneg by lia. do 3 f_equal. lia.
  - intros i Hi. rewrite length_list_ascii_of_string in Hi.
    rewrite Nat.add_0_l, Array_from_nth by exact Hi. rewrite mod2_even.
    now destruct (Nat.even i).
  - exact Hd.
Qed.

Lemma documented_range (s b : string) : 0 <= Documented.checkDigit s b <= 9.
Proof.
  unfold Documented.checkDigit.
  pose proof (Z.mod_pos_bound
                (Documented.weighted_sum
                   (Documented.alternating 3 7
                      (List.length (Documented.digits_of (b ++ Documented.zero_pad s))))
                   (Documented.digits_of (b ++ Documented.zero_pad s))) 10 ltac:(lia)).
  cbv zeta. lia.
Qed.

(** ** isPossibleNubanBank *)

Lemma String_substring_0_9 (accountNumber : string) :
  String_substring accountNumber 0 9 = substring 0 9 accountNumber.
Proof. reflexivity. Qed.

(** An account number read as a 9 character serial followed by a tail. *)
Lemma isPossibleNubanBank_serial (serial tail bankCode : string) (st : Statics) :
  String.length serial = 9%nat ->
  isPossibleNubanBank (serial ++ tail) bankCode st
  = (checkDigit <- generateCheckDigit serial bankCode ;;
     ret (checkDigit === Number_of_index (String.get 0 tail))%js) st.
Proof.
  intros Hlen. unfold isPossibleNubanBank.
  rewrite String_substring_0_9, <- Hlen, substring_prefix, get_after_prefix.
  reflexivity.
Qed.

(** With 9 characters or more in the account number the serial passes the
    validation, so the comparison is reached. *)
Lemma isPossibleNubanBank_returns (accountNumber bankCode : string) (st : Statics) :
  (9 <= String.length accountNumber)%nat ->
  exists possible, isPossibleNubanBank accountNumber bankCode st = (Normal possible, st).
Proof.
  intros Hlen. unfold isPossibleNubanBank, bind.
  rewrite String_substring_0_9.
  pose proof (substring_length accountNumber 9 Hlen) as Hserial.
  destruct (generateCheckDigit_accepts (substring 0 9 accountNumber) bankCode st)
    as [n Hn].
  - intros E. rewrite E in Hserial. discriminate.
  - lia.
  - rewrite Hn. eexists; reflexivity.
Qed.

(** The decimal form of a digit value is one digit character. *)
Lemma digit_toString (d : Z) :
  0 <= d <= 9 ->
  exists c, Number_toString (Num d) = String c "" /\ Number_of_char c = Num d.
Proof.
  intros H.
  assert (C : d = 0 \/ d = 1 \/ d = 2 \/ d = 3 \/ d = 4 \/ d = 5
              \/ d = 6 \/ d = 7 \/ d = 8 \/ d = 9) by lia.
  repeat (destruct C as [-> | C]); try subst d;
    eexists; split; reflexivity.
Qed.

(** The account number [serial ++ String(d)] against the computed digit. *)
Lemma isPossibleNubanBank_digit (serial bankCode : string) (d : Z) (st : Statics) :
  String.length serial = 9%nat ->
  all_digits serial = true -> all_digits bankCode = true ->
  0 <= d <= 9 ->
  isPossibleNubanBank (serial ++ Number_toString (Num d)) bankCode st
  = (Normal (Documented.checkDigit serial bankCode =? d), st).
Proof.
  intros Hlen Hs Hb Hd.
  rewrite isPossibleNubanBank_serial by exact Hlen. unfold bind.
  rewrite generateCheckDigit_documented; try assumption.
  - destruct (digit_toString d Hd) as [c [-> Hc]]. simpl String.get.
    unfold Number_of_index. rewrite Hc. reflexivity.
  - intros E. rewrite E in Hlen. discriminate.
  - lia.
Qed.

(** ** Array.filter and getPossibleNubanBanks *)

Lemma Subsequence_In {A : Type} (l1 l2 : list A) :
  Subsequence l1 l2 -> forall x, In x l1 -> In x l2.
Proof.
  induction 1 as [| x l1 l2 _ IH | x l1 l2 _ IH]; intros y Hy; simpl in *.
  - exact Hy.
  - destruct Hy as [-> | Hy]; [now left | right; now apply IH].
  - right; now apply IH.
Qed.

(** A callback that returns on every element and leaves the state as it is:
    the filter returns, and what it returns is a subsequence of its input. *)
Lemma Array_filter_returns {A : Type} (callback : A -> M bool) (arr : list A)
      (st : Statics) :
  (forall x, In x arr -> exists keep, callback x st = (Normal keep, st)) ->
  exists out, Array_filter callback arr st = (Normal out, st) /\ Subsequence out arr.
Proof.
  induction arr as [|x rest IH]; intros Hcb; simpl.
  - exists []. split; [reflexivity | constructor].
  - destruct (Hcb x (or_introl eq_refl)) as [keep Hkeep].
    destruct IH as [kept [Hrun Hsub]].
    { intros y Hy. apply Hcb. now right. }
    unfold bind. rewrite Hkeep, Hrun. unfold ret.
    destruct keep; eexists; (split; [reflexivity|]); now constructor.
Qed.

Lemma getPossibleNubanBanks_returns (accountNumber : string)
      (banks : option (list Bank)) (st : Statics) :
  (9 <= String.length accountNumber)%nat ->
  exists out,
    getPossibleNubanBanks accountNumber banks st = (Normal out, st)
    /\ Subsequence out match banks with
                       | Some l => l
                       | None => Nuban_banks st
                       end.
Proof.
  intros Hlen. unfold getPossibleNubanBanks.
  destruct banks as [l|]; unfold bind, ret, readStatics;
    apply Array_filter_returns; intros x _;
    now apply isPossibleNubanBank_returns.
Qed.

(** ** Registry lookup *)

Lemma lookupBank_first (candidates : list Bank) (value : string) (property : BankProperty) :
  match lookupBank candidates value property with
  | Some r =>
      exists before after,
        candidates = (before ++ r :: after)%list
        /\ hasProperty property value r = true
        /\ Forall (fun x => hasProperty property value x = false) before
  | None => Forall (fun x => hasProperty property value x = false) candidates
  end.
Proof.
  unfold lookupBank.
  induction candidates as [|x rest IH]; simpl; [constructor|].
  destruct (hasProperty property value x) eqn:Hx.
  - exists [], rest. repeat split; [exact Hx | constructor].
  - destruct (find (hasProperty property value) rest) as [r|].
    + destruct IH as [before [after [-> [Hr Hbefore]]]].
      exists (x :: before), after. repeat split; [exact Hr | now constructor].
    + now constructor.
Qed.

(** ** Concrete runs *)

(** The scenario of the documentation: serial 123456789 under bank code
    000014 is the digit string 000014123456789, of weighted sum 246. *)
Example generateCheckDigit_golden :
  generateCheckDigit "123456789" "000014" sampleStatics = (Normal (Num 3), sampleStatics).
Proof. reflexivity. Qed.

Example isPossibleNubanBank_zenith :
  isPossibleNubanBank "0123456789" "000015" sampleStatics = (Normal true, sampleStatics).
Proof. reflexivity. Qed.

Example generateSeed_nine :
  fst (generateSeed 9 sampleStatics)
  = Normal [Num 3; Num 7; Num 3; Num 7; Num 3; Num 7; Num 3; Num 7; Num 3].
Proof. reflexivity. Qed.

(** A character that is not a digit makes the sum NaN; a blank counts 0. *)
Example generateCheckDigit_letter :
  generateCheckDigit "12a" "000015" sampleStatics = (Normal NaN, sampleStatics).
Proof. reflexivity. Qed.

Example generateCheckDigit_blank :
  generateCheckDigit "12 " "000015" sampleStatics = (Normal (Num 4), sampleStatics).
Proof. reflexivity. Qed.

(** The default candidate list is read from the state of the class. *)
Example getPossibleNubanBanks_default_reads_state :
  fst (getPossibleNubanBanks "0123456789" None (mkStatics [] [])) = Normal []
  /\ fst (getPossibleNubanBanks "0123456789" None sampleStatics) <> Normal [].
Proof. split; [reflexivity | discriminate]. Qed.

(** * The claims of the specification *)

(** ** C1: the engine against the documented algorithm *)

(** C1, as amended.  For every non-empty serial of at most 9 digits and every
    bank code of digits, generateCheckDigit returns exactly the value of the
    documented reference algorithm: zero padding to 9 digits, bank code
    followed by padded serial, weights 3, 7, 3, 7, ... from position 0, the
    weighted sum, its value modulo 10, and 9 minus that. *)
Theorem generateCheckDigit_refines_documented (serial bankCode : string) (st : Statics) :
  serial <> "" ->
  (String.length serial <= 9)%nat ->
  all_digits serial = true ->
  all_digits bankCode = true ->
  generateCheckDigit serial bankCode st
  = (Normal (Num (Documented.checkDigit serial bankCode)), st).
Proof.
  intros Hne Hlen Hs Hb. now apply generateCheckDigit_documented.
Qed.

Lemma generateCheckDigit_refines_documented_witness :
  "123456789" <> ""
  /\ (String.length "123456789" <= 9)%nat
  /\ generateCheckDigit "123456789" "000014" sampleStatics
     = (Normal (Num (Documented.checkDigit "123456789" "000014")), sampleStatics).
Proof.
  split; [discriminate|]. split; [simpl; lia|].
  apply (generateCheckDigit_refines_documented "123456789" "000014" sampleStatics);
    [discriminate | simpl; lia | reflexivity | reflexivity].
Defined.

(** C1 as stated fails at the empty serial: its length is at most 9 and it
    has no character that is not a digit, the documented algorithm gives 8
    for bank code 000014, and generateCheckDigit throws. *)
Lemma empty_serial_not_documented :
  (String.length "" <= 9)%nat
  /\ all_digits "" = true
  /\ all_digits "000014" = true
  /\ Documented.checkDigit "" "000014" = 8
  /\ fst (generateCheckDigit "" "000014" sampleStatics)
     <> Normal (Num (Documented.checkDigit "" "000014")).
Proof.
  repeat split; try reflexivity; [simpl; lia | discriminate].
Qed.

(** ** C2: when the serial is rejected *)

(** C2, as amended.  generateCheckDigit fails with InvalidSerialLength if and
    only if the serial is empty or longer than 9 characters; every non-empty
    serial of at most 9 digits (exactly 9 included) is accepted and, with a
    bank code of digits, produces a check digit between 0 and 9. *)
Theorem generateCheckDigit_throws_iff (serial bankCode : string) (st : Statics) :
  (fst (generateCheckDigit serial bankCode st) = Throw InvalidSerialLength
   <-> serial = "" \/ (10 <= String.length serial)%nat)
  /\ (serial <> "" -> (String.length serial <= 9)%nat ->
      all_digits serial = true -> all_digits bankCode = true ->
      exists d, generateCheckDigit serial bankCode st = (Normal (Num d), st)
                /\ 0 <= d <= 9).
Proof.
  split.
  - split.
    + intros Hthrow.
      destruct (validate_cases serial st) as [[Hne Hlen] | [H | H]];
        [| now left | right; lia].
      destruct (generateCheckDigit_accepts serial bankCode st Hne Hlen) as [n Hn].
      rewrite Hn in Hthrow. discriminate.
    + intros H. rewrite generateCheckDigit_rejects; [reflexivity|].
      destruct H as [H | H]; [now left | right; lia].
  - intros Hne Hlen Hs Hb. exists (Documented.checkDigit serial bankCode).
    split; [now apply generateCheckDigit_documented | apply documented_range].
Qed.

Lemma generateCheckDigit_throws_iff_witness :
  fst (generateCheckDigit "0123456789" "000015" sampleStatics) = Throw InvalidSerialLength
  /\ exists d, generateCheckDigit "012345678" "000015" sampleStatics
               = (Normal (Num d), sampleStatics)
               /\ 0 <= d <= 9.
Proof.
  split.
  - apply (proj1 (generateCheckDigit_throws_iff "0123456789" "000015" sampleStatics)).
    right. simpl. lia.
  - apply (proj2 (generateCheckDigit_throws_iff "012345678" "000015" sampleStatics));
      [discriminate | simpl; lia | reflexivity | reflexivity].
Defined.

(** C2 as stated fails at the empty serial: its length does not exceed 9 and
    it is rejected with InvalidSerialLength. *)
Lemma empty_serial_rejected_within_length :
  (String.length "" <= 9)%nat
  /\ generateCheckDigit "" "000014" sampleStatics
     = (Throw InvalidSerialLength, sampleStatics).
Proof.
  split; [simpl; lia | reflexivity].
Qed.

(** ** C9: the empty serial *)

(** C9.  For the empty serial generateCheckDigit fails with the error "Nuban
    serial code should not be more than 9 digits", whatever the bank code,
    although the length of the empty string does not exceed 9: the guard
    rejects a falsy serial as well as a long one. *)
Theorem generateCheckDigit_empty_serial_throws (bankCode : string) (st : Statics) :
  generateCheckDigit "" bankCode st
  = (Throw (Error "Nuban serial code should not be more than 9 digits"), st)
  /\ truthy_string "" = false
  /\ Nat.ltb NUBAN_SERIAL_CODE_LENGTH (String.length "") = false.
Proof.
  repeat split.
Qed.

(** ** C6: range of the check digit *)

(** C6.  For every 9-digit serial and every 6-digit bank code
    generateCheckDigit returns an integer between 0 and 9. *)
Theorem generateCheckDigit_range (serial bankCode : string) (st : Statics) :
  String.length serial = 9%nat -> all_digits serial = true ->
  String.length bankCode = 6%nat -> all_digits bankCode = true ->
  exists d, generateCheckDigit serial bankCode st = (Normal (Num d), st)
            /\ 0 <= d <= 9.
Proof.
  intros Hlen Hs _ Hb. exists (Documented.checkDigit serial bankCode). split.
  - apply generateCheckDigit_documented; try assumption; [| lia].
    intros E. rewrite E in Hlen. discriminate.
  - apply documented_range.
Qed.

Lemma generateCheckDigit_range_witness :
  exists d, generateCheckDigit "123456789" "000014" sampleStatics
            = (Normal (Num d), sampleStatics)
            /\ 0 <= d <= 9.
Proof.
  apply (generateCheckDigit_range "123456789" "000014" sampleStatics); reflexivity.
Defined.

(** ** C4: round trip *)

(** C4, as amended.  For every bank code B of digits and every serial S of
    exactly 9 digits, the account number made of S followed by the computed
    check digit is accepted for B: isPossibleNubanBank(S + generateCheckDigit(S, B), B)
    returns true. *)
Theorem roundTrip_nine_digits (S B : string) (st : Statics) :
  String.length S = 9%nat ->
  all_digits S = true ->
  all_digits B = true ->
  roundTrip S B st = (Normal true, st).
Proof.
  intros Hlen Hs Hb. unfold roundTrip, bind.
  rewrite generateCheckDigit_documented; try assumption.
  - rewrite isPossibleNubanBank_digit; try assumption.
    + now rewrite Z.eqb_refl.
    + apply documented_range.
  - intros E. rewrite E in Hlen. discriminate.
  - lia.
Qed.

Lemma roundTrip_nine_digits_witness :
  String.length "012345678" = 9%nat
  /\ roundTrip "012345678" "000015" sampleStatics = (Normal true, sampleStatics).
Proof.
  split; [reflexivity|].
  apply (roundTrip_nine_digits "012345678" "000015" sampleStatics); reflexivity.
Defined.

(** C4 as stated fails at a serial shorter than 9 digits.  For S = "1" and
    B = "000014" the check digit is 5 and the account number is "15": its
    first 9 characters are "15" and it has no character at index 9, so the
    comparison is with NaN and isPossibleNubanBank returns false. *)
Lemma roundTrip_short_serial :
  (String.length "1" <= 9)%nat
  /\ all_digits "1" = true
  /\ all_digits "000014" = true
  /\ generateCheckDigit "1" "000014" sampleStatics = (Normal (Num 5), sampleStatics)
  /\ isPossibleNubanBank ("1" ++ Number_toString (Num 5)) "000014" sampleStatics
     = (Normal false, sampleStatics)
  /\ roundTrip "1" "000014" sampleStatics <> (Normal true, sampleStatics).
Proof.
  repeat split; try reflexivity; [simpl; lia | discriminate].
Qed.

(** ** C5: uniqueness of the check digit *)

(** C5.  For every 9-digit serial S and bank code B of digits there is a digit
    value d0, the one generateCheckDigit computes, such that for every digit
    value d the account number S followed by d is accepted for B exactly when
    d is d0: one value makes isPossibleNubanBank true and any other digit in
    its place makes it false. *)
Theorem check_digit_unique (S B : string) (st : Statics) :
  String.length S = 9%nat ->
  all_digits S = true ->
  all_digits B = true ->
  exists d0,
    0 <= d0 <= 9
    /\ generateCheckDigit S B st = (Normal (Num d0), st)
    /\ isPossibleNubanBank (S ++ Number_toString (Num d0)) B st = (Normal true, st)
    /\ forall d, 0 <= d <= 9 -> d <> d0 ->
                 isPossibleNubanBank (S ++ Number_toString (Num d)) B st
                 = (Normal false, st).
Proof.
  intros Hlen Hs Hb. exists (Documented.checkDigit S B).
  pose proof (documented_range S B) as Hr.
  split; [exact Hr|]. split; [| split].
  - apply generateCheckDigit_documented; try assumption; [| lia].
    intros E. rewrite E in Hlen. discriminate.
  - rewrite isPossibleNubanBank_digit by assumption. now rewrite Z.eqb_refl.
  - intros d Hd Hneq. rewrite isPossibleNubanBank_digit by assumption.
    destruct (Z.eqb_spec (Documented.checkDigit S B) d); [congruence | reflexivity].
Qed.

Lemma check_digit_unique_witness :
  exists d0,
    0 <= d0 <= 9
    /\ generateCheckDigit "012345678" "000015" sampleStatics
       = (Normal (Num d0), sampleStatics)
    /\ isPossibleNubanBank ("012345678" ++ Number_toString (Num d0)) "000015"
                           sampleStatics
       = (Normal true, sampleStatics)
    /\ forall d, 0 <= d <= 9 -> d <> d0 ->
                 isPossibleNubanBank ("012345678" ++ Number_toString (Num d)) "000015"
                                     sampleStatics
                 = (Normal false, sampleStatics).
Proof.
  apply (check_digit_unique "012345678" "000015" sampleStatics); reflexivity.
Defined.

(** ** C7: getPossibleNubanBanks filters in order *)

(** C7.  For every account number of 10 digits and every candidate list,
    given or defaulted to Nuban.banks, getPossibleNubanBanks returns a
    subsequence of the candidates: every returned record occurs in the
    candidate list and the returned records are in the order they have
    there. *)
Theorem getPossibleNubanBanks_subsequence (accountNumber : string)
        (banks : option (list Bank)) (st : Statics) :
  String.length accountNumber = 10%nat ->
  all_digits accountNumber = true ->
  let candidates := match banks with
                    | Some l => l
                    | None => Nuban_banks st
                    end in
  exists out,
    getPossibleNubanBanks accountNumber banks st = (Normal out, st)
    /\ Subsequence out candidates
    /\ forall bank, In bank out -> In bank candidates.
Proof.
  intros Hlen _ candidates.
  destruct (getPossibleNubanBanks_returns accountNumber banks st) as [out [Hrun Hsub]];
    [lia|].
  exists out. split; [exact Hrun|]. split; [exact Hsub|].
  now apply Subsequence_In.
Qed.

Lemma getPossibleNubanBanks_subsequence_witness :
  exists out,
    getPossibleNubanBanks "0123456789" (Some WEIGHTED_NIGERIAN_BANKS) sampleStatics
    = (Normal out, sampleStatics)
    /\ Subsequence out WEIGHTED_NIGERIAN_BANKS
    /\ forall bank, In bank out -> In bank WEIGHTED_NIGERIAN_BANKS.
Proof.
  apply (getPossibleNubanBanks_subsequence
           "0123456789" (Some WEIGHTED_NIGERIAN_BANKS) sampleStatics);
    reflexivity.
Defined.

(** ** C10: getPossibleNubanBanks does not throw on a 10-digit account number *)

(** C10.  For every account number of exactly 10 numeric characters and every
    candidate list, the serial taken as its first 9 characters has length 9
    and is not empty, the validation accepts it, generateCheckDigit does not
    throw on it for any bank code, and getPossibleNubanBanks returns a
    list. *)
Theorem getPossibleNubanBanks_never_throws (accountNumber : string)
        (banks : option (list Bank)) (st : Statics) :
  String.length accountNumber = 10%nat ->
  all_digits accountNumber = true ->
  let nubanSerialCode := String_substring accountNumber 0 9 in
  String.length nubanSerialCode = 9%nat
  /\ nubanSerialCode <> ""
  /\ validateNubanSerialCode nubanSerialCode st = (Normal true, st)
  /\ (forall bankCode,
         exists n, generateCheckDigit nubanSerialCode bankCode st = (Normal n, st))
  /\ exists out, getPossibleNubanBanks accountNumber banks st = (Normal out, st).
Proof.
  intros Hlen _ nubanSerialCode.
  assert (H9 : String.length nubanSerialCode = 9%nat).
  { unfold nubanSerialCode. rewrite String_substring_0_9.
    apply substring_length. lia. }
  assert (Hne : nubanSerialCode <> "").
  { intros E. rewrite E in H9. discriminate. }
  split; [exact H9|]. split; [exact Hne|]. split; [| split].
  - apply validate_accepts; [exact Hne | lia].
  - intros bankCode. apply generateCheckDigit_accepts; [exact Hne | lia].
  - destruct (getPossibleNubanBanks_returns accountNumber banks st) as [out [Hrun _]];
      [lia|].
    now exists out.
Qed.

Lemma getPossibleNubanBanks_never_throws_witness :
  exists out,
    getPossibleNubanBanks "0123456789" None sampleStatics = (Normal out, sampleStatics).
Proof.
  apply (getPossibleNubanBanks_never_throws "0123456789" None sampleStatics);
    reflexivity.
Defined.

(** ** C8: determinism *)

(** C8.  generateCheckDigit is deterministic: for the same serial and bank
    code the result is the same in any two states of the class, and a call
    leaves the state as it found it, so neither the order of calls nor any
    other state has a part in the result. *)
Theorem generateCheckDigit_deterministic (serial bankCode : string) (st1 st2 : Statics) :
  fst (generateCheckDigit serial bankCode st1) = fst (generateCheckDigit serial bankCode st2)
  /\ snd (generateCheckDigit serial bankCode st1) = st1.
Proof.
  unfold generateCheckDigit, bind, validateNubanSerialCode, generateSeed, ret, throw.
  destruct (negb (truthy_string serial)
            || Nat.ltb NUBAN_SERIAL_CODE_LENGTH (String.length serial));
    split; reflexivity.
Qed.

(** ** Registry lookup on the weighted table *)

(** The lookup is modelled from the specification and the full list is not
    available, so what it returns over the full list is left open.  On the
    weighted table, which is available, legacy code 058 is found: it is the
    record of GUARANTY TRUST BANK, of canonical code 000013, and this is what
    getBank returns for it in the initial state of the class whatever the
    full list is. *)
Lemma lookupBank_weighted_058 (NIGERIAN_BANKS : list Bank) :
  let st := initialStatics NIGERIAN_BANKS in
  let gtb := mkBank 10 "guarantee_trust_bank" "GUARANTY TRUST BANK" "000013"
                    (Some "058") (Some 1) in
  lookupBank WEIGHTED_NIGERIAN_BANKS "058" OLD_CODE = Some gtb
  /\ getBank "058" OLD_CODE st = (Normal (Some gtb), st).
Proof.
  split; reflexivity.
Qed.

(** * Further properties of the code *)

(** ** Format checks *)

Lemma digits_test_spec (s : string) :
  digits_test s = true <-> s <> "" /\ all_digits s = true.
Proof.
  unfold digits_test. destruct s as [|c s]; simpl truthy_string; simpl andb.
  - split; [discriminate | intros [H _]; congruence].
  - split; [intros H; split; [discriminate | exact H] | intros [_ H]; exact H].
Qed.

Lemma validateNuban_spec (this : Nuban) (accountNumber : string) :
  validateNuban this accountNumber = true
  <-> String.length accountNumber = 10%nat /\ all_digits accountNumber = true.
Proof.
  unfold validateNuban, NUBAN_LENGTH.
  rewrite andb_true_iff, Nat.eqb_eq, digits_test_spec. split.
  - intros [H1 [_ H2]]. now split.
  - intros [H1 H2]. repeat split; try assumption.
    intros E. rewrite E in H1. discriminate.
Qed.

Lemma validateBankCode_spec (this : Nuban) (bankCode : string) :
  validateBankCode this bankCode = true
  <-> all_digits bankCode = true
      /\ (String.length bankCode = 3%nat
          \/ (paymentProvider this = FLUTTERWAVE /\ String.length bankCode = 6%nat)).
Proof.
  unfold validateBankCode.
  destruct (digits_test bankCode) eqn:Hd.
  - apply digits_test_spec in Hd as [Hne Hdig].
    assert (Ht : truthy_nat (String.length bankCode) = true)
      by (destruct bankCode; [congruence | reflexivity]).
    rewrite Ht. simpl orb.
    destruct (paymentProvider this) eqn:Hp; cbv iota; simpl String.eqb; cbv iota.
    + rewrite Nat.eqb_eq. split.
      * intros H. split; [exact Hdig | now left].
      * intros [_ [H | [H _]]]; [exact H | discriminate].
    + rewrite orb_true_iff, !Nat.eqb_eq. split.
      * intros [H | H]; (split; [exact Hdig|]);
          [left | right; split; [reflexivity|]]; exact H.
      * intros [_ [H | [_ H]]]; [now left | now right].
  - rewrite orb_true_r. split; [discriminate|].
    intros [Hdig Hlen].
    assert (digits_test bankCode = true); [| congruence].
    apply digits_test_spec. split; [| exact Hdig].
    intros E. rewrite E in Hlen. simpl in Hlen.
    destruct Hlen as [H | [_ H]]; discriminate.
Qed.

(** ** validateAccount *)

(** Past the two format checks the query method of the provider runs. *)
Lemma validateAccount_well_formed (network : list Request -> Request -> settled Response)
      (this : Nuban) (accountNumber bankCode : string) :
  validateNuban this accountNumber = true ->
  validateBankCode this bankCode = true ->
  validateAccount network this accountNumber bankCode
  = try_catch
      (match paymentProvider this with
       | PAYSTACK => paystackQuery network this accountNumber bankCode
       | FLUTTERWAVE => flutterwaveQuery network this accountNumber bankCode
       end)
      (fun error => resolve (failure ("Account validation failed - " ++ errorMessage error))).
Proof.
  intros Hn Hb. unfold validateAccount. rewrite Hn, Hb.
  destruct this as [key provider]. destruct provider; reflexivity.
Qed.

Ltac run_query :=
  rewrite validateAccount_well_formed by assumption;
  match goal with
  | |- context [paymentProvider ?this] =>
      let key := fresh "key" in
      let provider := fresh "provider" in
      destruct this as [key provider]; destruct provider
  end;
  unfold paystackQuery, flutterwaveQuery, try_catch, await, fetch, awaited;
  cbn [paymentProvider apiKey VALIDATION_URL].

(** The query of a well-formed pair reaches the network once, with the
    request of the provider. *)
Lemma validateAccount_sent (network : list Request -> Request -> settled Response)
      (this : Nuban) (accountNumber bankCode : string) (sent : list Request) :
  validateNuban this accountNumber = true ->
  validateBankCode this bankCode = true ->
  snd (validateAccount network this accountNumber bankCode sent)
  = List.app sent
             [match paymentProvider this with
              | PAYSTACK =>
                  {| url := "https://api.paystack.co/bank/resolve?account_number="
                              ++ accountNumber ++ "&bank_code=" ++ bankCode;
                     method := "GET";
                     headers := [("Authorization", "Bearer " ++ apiKey this);
                                 ("Content-Type", "application/json")];
                     body := None |}
              | FLUTTERWAVE =>
                  {| url := "https://api.flutterwave.com/v3/accounts/resolve";
                     method := "POST";
                     headers := [("Authorization", "Bearer " ++ apiKey this);
                                 ("Content-Type", "application/json")];
                     body := Some (JObject [("account_number", JString accountNumber);
                                            ("account_bank", JString bankCode)]) |}
              end].
Proof.
  intros Hn Hb. run_query;
    match goal with
    | |- context [network sent ?request] =>
        destruct (network sent request) as [response | reason]
    end; try reflexivity;
    destruct (ok response); try reflexivity;
    destruct (json_body response) as [data | reason]; try reflexivity;
    unfold settle; destruct (validateApiResponse data); reflexivity.
Qed.

Lemma validateAccount_sent_witness :
  snd (validateAccount (fun _ _ => Rejected (NotError "offline"))
                       (mkNuban "sk_test" PAYSTACK) "0123456789" "057" [])
  = [{| url := "https://api.paystack.co/bank/resolve?account_number=0123456789&bank_code=057";
        method := "GET";
        headers := [("Authorization", "Bearer sk_test");
                    ("Content-Type", "application/json")];
        body := None |}].
Proof.
  apply (validateAccount_sent (fun _ _ => Rejected (NotError "offline"))
                              (mkNuban "sk_test" PAYSTACK) "0123456789" "057" []);
    reflexivity.
Defined.

(** validateAccount never rejects: whatever the network does it is fulfilled
    with an object that has a status and a message, after at most one
    request. *)
Theorem validateAccount_settles (network : list Request -> Request -> settled Response)
        (this : Nuban) (accountNumber bankCode : string) (sent : list Request) :
  exists members sent',
    validateAccount network this accountNumber bankCode sent
    = (Fulfilled (JObject members), sent')
    /\ has_member "status" members = true
    /\ has_member "message" members = true
    /\ (sent' = sent \/ exists request, sent' = (sent ++ [request])%list).
Proof.
  destruct (validateNuban this accountNumber) eqn:Hn;
    [destruct (validateBankCode this bankCode) eqn:Hb|].
  - run_query;
      match goal with
      | |- context [network sent ?request] =>
          destruct (network sent request) as [response | reason]
      end;
      try (do 2 eexists; repeat split; [right; eexists; reflexivity]);
      destruct (ok response);
      try (do 2 eexists; repeat split; [right; eexists; reflexivity]);
      destruct (json_body response) as [data | reason];
      try (do 2 eexists; repeat split; [right; eexists; reflexivity]);
      unfold settle, validateApiResponse;
      destruct data as [| | | | |members];
      try (do 2 eexists; repeat split; [right; eexists; reflexivity]);
      destruct (has_member "status" members) eqn:Hs;
      destruct (has_member "message" members) eqn:Hm;
      try (do 2 eexists; repeat split; [right; eexists; reflexivity]);
      exists members; eexists; (split; [reflexivity|]);
      (split; [exact Hs|]); (split; [exact Hm|]); right; eexists; reflexivity.
  - unfold validateAccount, try_catch. rewrite Hn, Hb.
    do 2 eexists; repeat split. now left.
  - unfold validateAccount, try_catch. rewrite Hn.
    do 2 eexists; repeat split. now left.
Qed.

(** A request is sent only for an account number of 10 digits and a bank
    code of digits in the length of the provider: 3, or 6 as well for
    Flutterwave. *)
Theorem validateAccount_sends_well_formed_only
        (network : list Request -> Request -> settled Response)
        (this : Nuban) (accountNumber bankCode : string) (sent : list Request) :
  snd (validateAccount network this accountNumber bankCode sent) <> sent ->
  String.length accountNumber = 10%nat
  /\ all_digits accountNumber = true
  /\ all_digits bankCode = true
  /\ (String.length bankCode = 3%nat
      \/ (paymentProvider this = FLUTTERWAVE /\ String.length bankCode = 6%nat)).
Proof.
  intros Hsent.
  destruct (validateNuban this accountNumber) eqn:Hn.
  - destruct (validateBankCode this bankCode) eqn:Hb.
    + apply validateNuban_spec in Hn as [H1 H2].
      apply validateBankCode_spec in Hb as [H3 H4]. now repeat split.
    + exfalso. apply Hsent. unfold validateAccount, try_catch. now rewrite Hn, Hb.
  - exfalso. apply Hsent. unfold validateAccount, try_catch. now rewrite Hn.
Qed.

Lemma validateAccount_sends_well_formed_only_witness :
  String.length "0123456789" = 10%nat
  /\ all_digits "0123456789" = true
  /\ all_digits "000015" = true
  /\ (String.length "000015" = 3%nat
      \/ (FLUTTERWAVE = FLUTTERWAVE /\ String.length "000015" = 6%nat)).
Proof.
  apply (validateAccount_sends_well_formed_only
           (fun _ _ => Rejected (NotError "offline"))
           (mkNuban "FLWSECK_TEST" FLUTTERWAVE) "0123456789" "000015" []).
  discriminate.
Defined.

(** The answer of the provider, when the response is ok and its JSON is an
    object with a status and a message, is returned as it is. *)
Theorem validateAccount_returns_provider_answer
        (network : list Request -> Request -> settled Response)
        (this : Nuban) (accountNumber bankCode : string) (sent : list Request)
        (response : Response) (members : list (string * json)) :
  validateNuban this accountNumber = true ->
  validateBankCode this bankCode = true ->
  (forall request, network sent request = Fulfilled response) ->
  ok response = true ->
  json_body response = Fulfilled (JObject members) ->
  has_member "status" members = true ->
  has_member "message" members = true ->
  fst (validateAccount network this accountNumber bankCode sent)
  = Fulfilled (JObject members).
Proof.
  intros Hn Hb Hnet Hok Hjson Hs Hm.
  run_query; rewrite Hnet, Hok, Hjson; unfold settle, validateApiResponse;
    rewrite Hs, Hm; reflexivity.
Qed.

Lemma validateAccount_returns_provider_answer_witness :
  fst (validateAccount
         (fun _ _ => Fulfilled
                       (mkResponse true 200
                          (Fulfilled (JObject [("status", JBoolean true);
                                               ("message", JString "Account details fetched")]))))
         (mkNuban "sk_test" PAYSTACK) "0123456789" "057" [])
  = Fulfilled (JObject [("status", JBoolean true);
                        ("message", JString "Account details fetched")]).
Proof.
  apply (validateAccount_returns_provider_answer
           _ (mkNuban "sk_test" PAYSTACK) "0123456789" "057" []
           (mkResponse true 200
              (Fulfilled (JObject [("status", JBoolean true);
                                   ("message", JString "Account details fetched")]))));
    reflexivity.
Defined.

(** A response that is not ok is reported as a failure whose message names
    the provider and the HTTP status. *)
Theorem validateAccount_http_error
        (network : list Request -> Request -> settled Response)
        (this : Nuban) (accountNumber bankCode : string) (sent : list Request)
        (response : Response) :
  validateNuban this accountNumber = true ->
  validateBankCode this bankCode = true ->
  (forall request, network sent request = Fulfilled response) ->
  ok response = false ->
  fst (validateAccount network this accountNumber bankCode sent)
  = Fulfilled
      (failure ("Account validation failed - "
                  ++ match paymentProvider this with
                     | PAYSTACK => "Paystack"
                     | FLUTTERWAVE => "Flutterwave"
                     end
                  ++ " API error: HTTP error! status: "
                  ++ Number_toString (Num (status response)))).
Proof.
  intros Hn Hb Hnet Hok. run_query; rewrite Hnet, Hok; reflexivity.
Qed.

Lemma validateAccount_http_error_witness :
  fst (validateAccount (fun _ _ => Fulfilled (mkResponse false 400 (Rejected (NotError ""))))
                       (mkNuban "sk_test" PAYSTACK) "0123456789" "057" [])
  = Fulfilled
      (failure "Account validation failed - Paystack API error: HTTP error! status: 400").
Proof.
  apply (validateAccount_http_error
           _ (mkNuban "sk_test" PAYSTACK) "0123456789" "057" []
           (mkResponse false 400 (Rejected (NotError "")))); reflexivity.
Defined.

(** A fetch that fails, or a response whose JSON cannot be read, is reported
    as a failure with the message of the error; an answer that is not an
    object with status and message as an invalid response format. *)
Theorem validateAccount_reports_errors
        (network : list Request -> Request -> settled Response)
        (this : Nuban) (accountNumber bankCode : string) (sent : list Request) :
  validateNuban this accountNumber = true ->
  validateBankCode this bankCode = true ->
  let report cause :=
    Fulfilled
      (failure ("Account validation failed - "
                  ++ match paymentProvider this with
                     | PAYSTACK => "Paystack"
                     | FLUTTERWAVE => "Flutterwave"
                     end
                  ++ " API error: " ++ cause)) in
  (forall reason,
      (forall request, network sent request = Rejected reason) ->
      fst (validateAccount network this accountNumber bankCode sent)
      = report (errorMessage reason))
  /\ (forall response reason,
         (forall request, network sent request = Fulfilled response) ->
         ok response = true ->
         json_body response = Rejected reason ->
         fst (validateAccount network this accountNumber bankCode sent)
         = report (errorMessage reason))
  /\ (forall response data,
         (forall request, network sent request = Fulfilled response) ->
         ok response = true ->
         json_body response = Fulfilled data ->
         (forall members, data = JObject members ->
                          has_member "status" members && has_member "message" members = false) ->
         fst (validateAccount network this accountNumber bankCode sent)
         = report "Invalid API response format").
Proof.
  intros Hn Hb report. unfold report. repeat split.
  - intros reason Hnet. run_query; rewrite Hnet; reflexivity.
  - intros response reason Hnet Hok Hjson.
    run_query; rewrite Hnet, Hok, Hjson; reflexivity.
  - intros response data Hnet Hok Hjson Hbad.
    run_query; rewrite Hnet, Hok, Hjson; unfold settle, validateApiResponse;
      destruct data as [| | | | |members]; try reflexivity;
      rewrite (Hbad members eq_refl); reflexivity.
Qed.

Lemma validateAccount_reports_errors_witness :
  fst (validateAccount (fun _ _ => Rejected (IsError (Error "API Error")))
                       (mkNuban "sk_test" PAYSTACK) "0123456789" "057" [])
  = Fulfilled (failure "Account validation failed - Paystack API error: API Error").
Proof.
  apply (proj1 (validateAccount_reports_errors
                  (fun _ _ => Rejected (IsError (Error "API Error")))
                  (mkNuban "sk_test" PAYSTACK) "0123456789" "057" []
                  eq_refl eq_refl) (IsError (Error "API Error"))).
  reflexivity.
Defined.

(** ** getPossibleNubanBanks on every account number *)

Lemma substring_whole (s : string) (n : nat) :
  (String.length s <= n)%nat -> substring 0 n s = s.
Proof.
  revert n; induction s as [|c s IH]; intros [|n] H; simpl in *;
    try reflexivity; try lia.
  rewrite IH; [reflexivity | lia].
Qed.

Lemma get_out_of_range (s : string) (n : nat) :
  (String.length s <= n)%nat -> String.get n s = None.
Proof.
  revert n; induction s as [|c s IH]; intros [|n] H; simpl in *;
    try reflexivity; try lia.
  apply IH. lia.
Qed.

(** An account number of 1 to 9 characters: the serial is the whole of it,
    there is no check digit to read, and the comparison with NaN fails. *)
Lemma isPossibleNubanBank_short (accountNumber bankCode : string) (st : Statics) :
  accountNumber <> "" -> (String.length accountNumber <= 9)%nat ->
  isPossibleNubanBank accountNumber bankCode st = (Normal false, st).
Proof.
  intros Hne Hlen. unfold isPossibleNubanBank, bind.
  rewrite String_substring_0_9, (substring_whole accountNumber 9 Hlen).
  destruct (generateCheckDigit_accepts accountNumber bankCode st Hne Hlen) as [n ->].
  rewrite (get_out_of_range accountNumber 9 Hlen).
  now destruct n.
Qed.

Lemma isPossibleNubanBank_keeps (accountNumber : string) (st : Statics) (bank : Bank) :
  accountNumber <> "" ->
  isPossibleNubanBank accountNumber (code bank) st
  = (Normal (keeps accountNumber st bank), st).
Proof.
  intros Hne. unfold keeps.
  destruct (Nat.le_gt_cases (String.length accountNumber) 9) as [H | H].
  - now rewrite isPossibleNubanBank_short.
  - destruct (isPossibleNubanBank_returns accountNumber (code bank) st) as [p ->];
      [lia | reflexivity].
Qed.

Lemma Array_filter_pure {A : Type} (callback : A -> M bool) (p : A -> bool)
      (arr : list A) (st : Statics) :
  (forall x, In x arr -> callback x st = (Normal (p x), st)) ->
  Array_filter callback arr st = (Normal (filter p arr), st).
Proof.
  induction arr as [|x rest IH]; intros Hcb; simpl; [reflexivity|].
  unfold bind. rewrite (Hcb x (or_introl eq_refl)).
  rewrite IH by (intros y Hy; apply Hcb; now right).
  unfold ret. now destruct (p x).
Qed.

Lemma getPossibleNubanBanks_filter (accountNumber : string)
      (banks : option (list Bank)) (st : Statics) :
  accountNumber <> "" ->
  getPossibleNubanBanks accountNumber banks st
  = (Normal (filter (keeps accountNumber st)
                    match banks with
                    | Some l => l
                    | None => Nuban_banks st
                    end), st).
Proof.
  intros Hne. unfold getPossibleNubanBanks.
  destruct banks as [l|]; unfold bind, ret, readStatics;
    apply Array_filter_pure; intros x _; now apply isPossibleNubanBank_keeps.
Qed.

(** For every non-empty account number getPossibleNubanBanks returns, without
    throwing, exactly the candidates that isPossibleNubanBank accepts: no
    accepted candidate is left out and no other is returned. *)
Theorem getPossibleNubanBanks_exact (accountNumber : string)
        (banks : option (list Bank)) (st : Statics) :
  accountNumber <> "" ->
  let candidates := match banks with
                    | Some l => l
                    | None => Nuban_banks st
                    end in
  exists out,
    getPossibleNubanBanks accountNumber banks st = (Normal out, st)
    /\ out = filter (keeps accountNumber st) candidates
    /\ forall bank,
        In bank out
        <-> In bank candidates
            /\ isPossibleNubanBank accountNumber (code bank) st = (Normal true, st).
Proof.
  intros Hne candidates. eexists. split; [now apply getPossibleNubanBanks_filter|].
  split; [reflexivity|].
  intros bank. rewrite filter_In. fold candidates.
  rewrite (isPossibleNubanBank_keeps accountNumber st bank Hne).
  split; intros [Hin Hk]; (split; [exact Hin|]); [now rewrite Hk | now injection Hk].
Qed.

Lemma getPossibleNubanBanks_exact_witness :
  exists out,
    getPossibleNubanBanks "0123456789" (Some WEIGHTED_NIGERIAN_BANKS) sampleStatics
    = (Normal out, sampleStatics)
    /\ out = filter (keeps "0123456789" sampleStatics) WEIGHTED_NIGERIAN_BANKS
    /\ forall bank,
        In bank out
        <-> In bank WEIGHTED_NIGERIAN_BANKS
            /\ isPossibleNubanBank "0123456789" (code bank) sampleStatics
               = (Normal true, sampleStatics).
Proof.
  apply (getPossibleNubanBanks_exact "0123456789" (Some WEIGHTED_NIGERIAN_BANKS)
                                     sampleStatics).
  discriminate.
Defined.

(** Running getPossibleNubanBanks on its own result returns that result: a
    list narrowed once is not narrowed further. *)
Theorem getPossibleNubanBanks_idempotent (accountNumber : string)
        (banks : option (list Bank)) (st : Statics) (out : list Bank) :
  getPossibleNubanBanks accountNumber banks st = (Normal out, st) ->
  getPossibleNubanBanks accountNumber (Some out) st = (Normal out, st).
Proof.
  intros Hrun.
  destruct accountNumber as [|c rest].
  - (* the empty account number returns only on an empty candidate list *)
    unfold getPossibleNubanBanks, bind in Hrun.
    destruct banks as [l|]; unfold ret, readStatics in Hrun;
      match type of Hrun with
      | Array_filter _ ?cands _ = _ => destruct cands as [|b l']
      end; simpl in Hrun; try discriminate;
      injection Hrun as <-; reflexivity.
  - assert (Hne : String c rest <> "") by discriminate.
    rewrite (getPossibleNubanBanks_filter _ banks st Hne) in Hrun.
    injection Hrun as <-.
    rewrite (getPossibleNubanBanks_filter _ _ st Hne).
    f_equal. f_equal.
    induction (match banks with Some l => l | None => Nuban_banks st end) as [|b l IH];
      simpl; [reflexivity|].
    destruct (keeps (String c rest) st b) eqn:Hk; simpl; [rewrite Hk, IH | rewrite IH];
      reflexivity.
Qed.

Lemma getPossibleNubanBanks_idempotent_witness :
  getPossibleNubanBanks "0123456789"
    (Some (filter (keeps "0123456789" sampleStatics) WEIGHTED_NIGERIAN_BANKS)) sampleStatics
  = (Normal (filter (keeps "0123456789" sampleStatics) WEIGHTED_NIGERIAN_BANKS),
     sampleStatics).
Proof.
  apply (getPossibleNubanBanks_idempotent
           "0123456789" (Some WEIGHTED_NIGERIAN_BANKS) sampleStatics).
  reflexivity.
Defined.

(** An account number of 1 to 9 characters has no possible bank: the result
    is the empty list for every candidate list. *)
Theorem getPossibleNubanBanks_short_account (accountNumber : string)
        (banks : option (list Bank)) (st : Statics) :
  accountNumber <> "" ->
  (String.length accountNumber <= 9)%nat ->
  getPossibleNubanBanks accountNumber banks st = (Normal [], st).
Proof.
  intros Hne Hlen. rewrite (getPossibleNubanBanks_filter _ banks st Hne).
  f_equal. f_equal.
  induction (match banks with Some l => l | None => Nuban_banks st end) as [|b l IH];
    simpl; [reflexivity|].
  unfold keeps at 1. now rewrite isPossibleNubanBank_short.
Qed.

Lemma getPossibleNubanBanks_short_account_witness :
  getPossibleNubanBanks "012345678" (Some WEIGHTED_NIGERIAN_BANKS) sampleStatics
  = (Normal [], sampleStatics).
Proof.
  apply (getPossibleNubanBanks_short_account
           "012345678" (Some WEIGHTED_NIGERIAN_BANKS) sampleStatics);
    [discriminate | simpl; lia].
Defined.

(** The empty account number: getPossibleNubanBanks throws the error of the
    serial validation as soon as there is a candidate, and returns the empty
    list when there is none. *)
Theorem getPossibleNubanBanks_empty_account (banks : option (list Bank)) (st : Statics) :
  let candidates := match banks with
                    | Some l => l
                    | None => Nuban_banks st
                    end in
  getPossibleNubanBanks "" banks st
  = (match candidates with
     | [] => Normal []
     | _ :: _ => Throw InvalidSerialLength
     end, st).
Proof.
  intros candidates. unfold candidates, getPossibleNubanBanks, bind.
  destruct banks as [l|]; unfold ret, readStatics;
    match goal with
    | |- Array_filter _ ?cands _ = _ => destruct cands as [|b l']
    end; reflexivity.
Qed.

(** ** What isPossibleNubanBank reads of the account number *)

Lemma substring_append_long (s t : string) (n : nat) :
  (n <= String.length s)%nat -> substring 0 n (s ++ t) = substring 0 n s.
Proof.
  revert n; induction s as [|c s IH]; intros [|n] H; simpl in *; try lia.
  - now destruct t.
  - reflexivity.
  - rewrite IH; [reflexivity | lia].
Qed.

Lemma isPossibleNubanBank_first_ten (accountNumber extra bankCode : string) (st : Statics) :
  (10 <= String.length accountNumber)%nat ->
  isPossibleNubanBank (accountNumber ++ extra) bankCode st
  = isPossibleNubanBank accountNumber bankCode st.
Proof.
  intros Hlen. unfold isPossibleNubanBank.
  rewrite !String_substring_0_9, substring_append_long by lia.
  now rewrite <- (append_correct1 accountNumber extra 9) by lia.
Qed.

(** Only the first ten characters of the account number count: whatever
    follows them changes neither the result nor the fact that it returns. *)
Theorem getPossibleNubanBanks_first_ten (accountNumber extra : string)
        (banks : option (list Bank)) (st : Statics) :
  (10 <= String.length accountNumber)%nat ->
  getPossibleNubanBanks (accountNumber ++ extra) banks st
  = getPossibleNubanBanks accountNumber banks st.
Proof.
  intros Hlen.
  assert (Hne : accountNumber <> "").
  { intros E. rewrite E in Hlen. simpl in Hlen. lia. }
  assert (Hne' : accountNumber ++ extra <> "").
  { destruct accountNumber; [congruence | discriminate]. }
  rewrite !getPossibleNubanBanks_filter by assumption.
  f_equal. f_equal. apply filter_ext. intros bank. unfold keeps.
  now rewrite isPossibleNubanBank_first_ten.
Qed.

Lemma getPossibleNubanBanks_first_ten_witness :
  getPossibleNubanBanks ("0123456789" ++ "-NGN") (Some WEIGHTED_NIGERIAN_BANKS) sampleStatics
  = getPossibleNubanBanks "0123456789" (Some WEIGHTED_NIGERIAN_BANKS) sampleStatics.
Proof.
  apply (getPossibleNubanBanks_first_ten
           "0123456789" "-NGN" (Some WEIGHTED_NIGERIAN_BANKS) sampleStatics).
  simpl. lia.
Defined.

(** ** Short serials are zero padded *)

Lemma padStart_length (s : string) :
  (String.length s <= 9)%nat ->
  String.length (padStart s NUBAN_SERIAL_CODE_LENGTH "0") = 9%nat.
Proof.
  intros H. rewrite padStart_zero. now apply length_zero_pad.
Qed.

Lemma padStart_full (s : string) :
  (9 <= String.length s)%nat -> padStart s NUBAN_SERIAL_CODE_LENGTH "0" = s.
Proof.
  intros H. unfold padStart, NUBAN_SERIAL_CODE_LENGTH.
  destruct (Nat.leb_spec 9 (String.length s)); [reflexivity | lia].
Qed.

(** A serial of 1 to 9 characters has the check digit of the 9 characters it
    is padded to: leading zeros of a serial do not count. *)
Theorem generateCheckDigit_padded (serial bankCode : string) (st : Statics) :
  serial <> "" ->
  (String.length serial <= 9)%nat ->
  String.length (padStart serial NUBAN_SERIAL_CODE_LENGTH "0") = 9%nat
  /\ generateCheckDigit (padStart serial NUBAN_SERIAL_CODE_LENGTH "0") bankCode st
     = generateCheckDigit serial bankCode st.
Proof.
  intros Hne Hlen.
  pose proof (padStart_length serial Hlen) as H9. split; [exact H9|].
  assert (Hne' : padStart serial NUBAN_SERIAL_CODE_LENGTH "0" <> "").
  { intros E. rewrite E in H9. discriminate. }
  assert (Hlen' : (String.length (padStart serial NUBAN_SERIAL_CODE_LENGTH "0") <= 9)%nat)
    by lia.
  unfold generateCheckDigit, bind.
  rewrite (validate_accepts serial st Hne Hlen).
  rewrite (validate_accepts _ st Hne' Hlen').
  rewrite (padStart_full (padStart serial NUBAN_SERIAL_CODE_LENGTH "0")) by lia.
  reflexivity.
Qed.

Lemma generateCheckDigit_padded_witness :
  String.length (padStart "42" NUBAN_SERIAL_CODE_LENGTH "0") = 9%nat
  /\ generateCheckDigit (padStart "42" NUBAN_SERIAL_CODE_LENGTH "0") "000015" sampleStatics
     = generateCheckDigit "42" "000015" sampleStatics.
Proof.
  apply (generateCheckDigit_padded "42" "000015" sampleStatics);
    [discriminate | simpl; lia].
Defined.

(** ** Errors the check digit detects *)

Lemma weighted_sum_at (l1 l2 : list Z) :
  forall a b, exists w K,
    (w = a \/ w = b)
    /\ forall x,
        Documented.weighted_sum
          (Documented.alternating a b (List.length (l1 ++ x :: l2))) (l1 ++ x :: l2)
        = K + w * x.
Proof.
  induction l1 as [|d l1 IH]; intros a b.
  - exists a, (Documented.weighted_sum (Documented.alternating b a (List.length l2)) l2).
    split; [now left|]. intros x. simpl. lia.
  - destruct (IH b a) as [w [K [Hw HK]]].
    exists w, (a * d + K). split; [tauto|].
    intros x. simpl. rewrite HK. lia.
Qed.

Lemma weighted_sum_at_pair (l1 l2 : list Z) :
  forall a b, exists w w' K,
    ((w = a /\ w' = b) \/ (w = b /\ w' = a))
    /\ forall x y,
        Documented.weighted_sum
          (Documented.alternating a b (List.length (l1 ++ x :: y :: l2)))
          (l1 ++ x :: y :: l2)
        = K + w * x + w' * y.
Proof.
  induction l1 as [|d l1 IH]; intros a b.
  - exists a, b, (Documented.weighted_sum (Documented.alternating a b (List.length l2)) l2).
    split; [now left|]. intros x y. simpl. lia.
  - destruct (IH b a) as [w [w' [K [Hw HK]]]].
    exists w, w', (a * d + K). split; [tauto|].
    intros x y. simpl. rewrite HK. lia.
Qed.

Lemma digits_of_append (s t : string) :
  Documented.digits_of (s ++ t)
  = (Documented.digits_of s ++ Documented.digits_of t)%list.
Proof.
  unfold Documented.digits_of. now rewrite list_ascii_of_string_append, map_app.
Qed.

Lemma digit_value_injective (c c' : ascii) :
  Documented.digit_value c = Documented.digit_value c' -> c = c'.
Proof.
  unfold Documented.digit_value. intros H.
  assert (E : nat_of_ascii c = nat_of_ascii c') by lia.
  rewrite <- (ascii_nat_embedding c), <- (ascii_nat_embedding c'). now rewrite E.
Qed.

(** The digits of the string the sum runs over, cut at one digit of the
    serial and at one digit of the bank code. *)
Lemma crypto_at_serial (bankCode p q : string) (c : ascii) :
  exists l1 l2, forall x : ascii,
    Documented.digits_of (bankCode ++ Documented.zero_pad (p ++ String x q))
    = (l1 ++ Documented.digit_value x :: l2)%list.
Proof.
  exists (Documented.digits_of
            (bankCode
               ++ string_of_list_ascii
                    (repeat "0"%char (9 - (String.length p + S (String.length q))))
               ++ p)),
         (Documented.digits_of q).
  intros x. unfold Documented.zero_pad. rewrite length_append. simpl String.length.
  rewrite !digits_of_append.
  change (Documented.digits_of (String x q))
    with (Documented.digit_value x :: Documented.digits_of q).
  now rewrite <- !app_assoc.
Qed.

Lemma crypto_at_bankCode (serial p q : string) (c : ascii) :
  exists l1 l2, forall x : ascii,
    Documented.digits_of ((p ++ String x q) ++ Documented.zero_pad serial)
    = (l1 ++ Documented.digit_value x :: l2)%list.
Proof.
  exists (Documented.digits_of p),
         (Documented.digits_of (q ++ Documented.zero_pad serial)).
  intros x. rewrite !digits_of_append.
  change (Documented.digits_of (String x q))
    with (Documented.digit_value x :: Documented.digits_of q).
  now rewrite <- app_assoc.
Qed.

Lemma substitution_changes_digit (l1 l2 : list Z) (x y : Z) :
  0 <= x <= 9 -> 0 <= y <= 9 -> x <> y ->
  9 - Documented.weighted_sum
        (Documented.alternating 3 7 (List.length (l1 ++ x :: l2))) (l1 ++ x :: l2) mod 10
  <> 9 - Documented.weighted_sum
           (Documented.alternating 3 7 (List.length (l1 ++ y :: l2))) (l1 ++ y :: l2) mod 10.
Proof.
  intros Hx Hy Hxy.
  destruct (weighted_sum_at l1 l2 3 7) as [w [K [Hw HK]]].
  rewrite !HK. destruct Hw as [-> | ->];
    Z.to_euclidean_division_equations; lia.
Qed.

Lemma checkDigit_serial_substitution (bankCode p q : string) (c c' : ascii) :
  is_digit c = true -> is_digit c' = true -> c <> c' ->
  Documented.checkDigit (p ++ String c q) bankCode
  <> Documented.checkDigit (p ++ String c' q) bankCode.
Proof.
  intros Hc Hc' Hneq. unfold Documented.checkDigit.
  destruct (crypto_at_serial bankCode p q c) as [l1 [l2 H]]. rewrite !H.
  apply substitution_changes_digit; try (now apply digit_value_range).
  intros E. apply Hneq. now apply digit_value_injective.
Qed.

Lemma checkDigit_bankCode_substitution (serial p q : string) (c c' : ascii) :
  is_digit c = true -> is_digit c' = true -> c <> c' ->
  Documented.checkDigit serial (p ++ String c q)
  <> Documented.checkDigit serial (p ++ String c' q).
Proof.
  intros Hc Hc' Hneq. unfold Documented.checkDigit.
  destruct (crypto_at_bankCode serial p q c) as [l1 [l2 H]]. rewrite !H.
  apply substitution_changes_digit; try (now apply digit_value_range).
  intros E. apply Hneq. now apply digit_value_injective.
Qed.

Lemma all_digits_cons (c : ascii) (s : string) :
  all_digits (String c s) = is_digit c && all_digits s.
Proof. reflexivity. Qed.

Lemma strict_eq_Num (d : Z) (n : number) :
  (Num d === n)%js = true -> n = Num d.
Proof.
  destruct n as [z|]; simpl; [| discriminate].
  intros H. apply Z.eqb_eq in H. now subst.
Qed.

(** The comparison of isPossibleNubanBank for a serial of 9 digits. *)
Lemma isPossibleNubanBank_documented (serial tail bankCode : string) (st : Statics) :
  String.length serial = 9%nat ->
  all_digits serial = true -> all_digits bankCode = true ->
  isPossibleNubanBank (serial ++ tail) bankCode st
  = (Normal (Num (Documented.checkDigit serial bankCode)
             === Number_of_index (String.get 0 tail))%js, st).
Proof.
  intros Hlen Hs Hb. rewrite isPossibleNubanBank_serial by exact Hlen. unfold bind.
  rewrite generateCheckDigit_documented; try assumption; [reflexivity | | lia].
  intros E. rewrite E in Hlen. discriminate.
Qed.

Lemma rejected_when_digit_differs (serial serial' tail bankCode bankCode' : string)
      (st : Statics) :
  String.length serial = 9%nat -> String.length serial' = 9%nat ->
  all_digits serial = true -> all_digits serial' = true ->
  all_digits bankCode = true -> all_digits bankCode' = true ->
  Documented.checkDigit serial bankCode <> Documented.checkDigit serial' bankCode' ->
  isPossibleNubanBank (serial ++ tail) bankCode st = (Normal true, st) ->
  isPossibleNubanBank (serial' ++ tail) bankCode' st = (Normal false, st).
Proof.
  intros H9 H9' Hs Hs' Hb Hb' Hneq Hacc.
  rewrite isPossibleNubanBank_documented in Hacc by assumption.
  rewrite isPossibleNubanBank_documented by assumption.
  injection Hacc as Hacc. apply strict_eq_Num in Hacc. rewrite Hacc. simpl.
  destruct (Z.eqb_spec (Documented.checkDigit serial' bankCode')
                       (Documented.checkDigit serial bankCode));
    [congruence | reflexivity].
Qed.

(** A wrong digit in the serial is detected: an account number that a bank
    code accepts is rejected for that bank code once any one of its first
    nine digits is replaced by another digit. *)
Theorem serial_substitution_detected (p q tail bankCode : string) (c c' : ascii)
        (st : Statics) :
  String.length (p ++ String c q) = 9%nat ->
  all_digits p = true -> all_digits q = true ->
  is_digit c = true -> is_digit c' = true -> c <> c' ->
  all_digits bankCode = true ->
  isPossibleNubanBank ((p ++ String c q) ++ tail) bankCode st = (Normal true, st) ->
  isPossibleNubanBank ((p ++ String c' q) ++ tail) bankCode st = (Normal false, st).
Proof.
  intros H9 Hp Hq Hc Hc' Hneq Hb Hacc.
  apply (rejected_when_digit_differs (p ++ String c q) (p ++ String c' q) tail
                                     bankCode bankCode st); try assumption.
  - rewrite length_append in *. exact H9.
  - now rewrite all_digits_append, all_digits_cons, Hp, Hc, Hq.
  - now rewrite all_digits_append, all_digits_cons, Hp, Hc', Hq.
  - now apply checkDigit_serial_substitution.
Qed.

Lemma serial_substitution_detected_witness :
  isPossibleNubanBank (("0123" ++ String "9" "5678") ++ "9") "000015" sampleStatics
  = (Normal false, sampleStatics).
Proof.
  apply (serial_substitution_detected "0123" "5678" "9" "000015" "4"%char "9"%char
                                      sampleStatics);
    try reflexivity.
  discriminate.
Defined.

(** Bank codes one digit apart never share an account number: an account
    number that a bank code of digits accepts is rejected for every bank code
    that differs from it in exactly one digit. *)
Theorem bankCode_substitution_excludes (serial tail p q : string) (c c' : ascii)
        (st : Statics) :
  String.length serial = 9%nat ->
  all_digits serial = true ->
  all_digits p = true -> all_digits q = true ->
  is_digit c = true -> is_digit c' = true -> c <> c' ->
  isPossibleNubanBank (serial ++ tail) (p ++ String c q) st = (Normal true, st) ->
  isPossibleNubanBank (serial ++ tail) (p ++ String c' q) st = (Normal false, st).
Proof.
  intros H9 Hs Hp Hq Hc Hc' Hneq Hacc.
  apply (rejected_when_digit_differs serial serial tail
                                     (p ++ String c q) (p ++ String c' q) st);
    try assumption.
  - now rewrite all_digits_append, all_digits_cons, Hp, Hc, Hq.
  - now rewrite all_digits_append, all_digits_cons, Hp, Hc', Hq.
  - now apply checkDigit_bankCode_substitution.
Qed.

Lemma bankCode_substitution_excludes_witness :
  isPossibleNubanBank ("012345678" ++ "9") ("00001" ++ String "4" "") sampleStatics
  = (Normal false, sampleStatics).
Proof.
  apply (bankCode_substitution_excludes "012345678" "9" "00001" "" "5"%char "4"%char
                                        sampleStatics);
    try reflexivity.
  discriminate.
Defined.

(** *** Adjacent transpositions *)

Lemma crypto_at_serial_pair (bankCode p q : string) :
  exists l1 l2, forall x y : ascii,
    Documented.digits_of (bankCode ++ Documented.zero_pad (p ++ String x (String y q)))
    = (l1 ++ Documented.digit_value x :: Documented.digit_value y :: l2)%list.
Proof.
  exists (Documented.digits_of
            (bankCode
               ++ string_of_list_ascii
                    (repeat "0"%char (9 - (String.length p + S (S (String.length q)))))
               ++ p)),
         (Documented.digits_of q).
  intros x y. unfold Documented.zero_pad. rewrite length_append. simpl String.length.
  rewrite !digits_of_append.
  change (Documented.digits_of (String x (String y q)))
    with (Documented.digit_value x :: Documented.digit_value y :: Documented.digits_of q).
  now rewrite <- !app_assoc.
Qed.

Lemma checkDigit_transposition (bankCode p q : string) (c1 c2 : ascii) :
  is_digit c1 = true -> is_digit c2 = true ->
  (Documented.checkDigit (p ++ String c2 (String c1 q)) bankCode
   =? Documented.checkDigit (p ++ String c1 (String c2 q)) bankCode)
  = ((Documented.digit_value c1 - Documented.digit_value c2) mod 5 =? 0).
Proof.
  intros H1 H2. unfold Documented.checkDigit.
  destruct (crypto_at_serial_pair bankCode p q) as [l1 [l2 H]]. rewrite !H.
  destruct (weighted_sum_at_pair l1 l2 3 7) as [w [w' [K [Hw HK]]]].
  rewrite !HK.
  pose proof (digit_value_range c1 H1). pose proof (digit_value_range c2 H2).
  destruct (Z.eqb_spec ((Documented.digit_value c1 - Documented.digit_value c2) mod 5) 0)
    as [E | E];
    [apply Z.eqb_eq | apply Z.eqb_neq];
    destruct Hw as [[-> ->] | [-> ->]];
    Z.to_euclidean_division_equations; lia.
Qed.

(** Two adjacent digits of the serial exchanged: the account number of an
    accepted one is rejected for the same bank code, unless the two digits
    are equal or differ by 5, in which case it is still accepted. *)
Theorem serial_transposition_detected (p q tail bankCode : string) (c1 c2 : ascii)
        (st : Statics) :
  String.length (p ++ String c1 (String c2 q)) = 9%nat ->
  all_digits p = true -> all_digits q = true ->
  is_digit c1 = true -> is_digit c2 = true ->
  all_digits bankCode = true ->
  isPossibleNubanBank ((p ++ String c1 (String c2 q)) ++ tail) bankCode st
  = (Normal true, st) ->
  isPossibleNubanBank ((p ++ String c2 (String c1 q)) ++ tail) bankCode st
  = (Normal ((Documented.digit_value c1 - Documented.digit_value c2) mod 5 =? 0), st).
Proof.
  intros H9 Hp Hq H1 H2 Hb Hacc.
  assert (H9' : String.length (p ++ String c2 (String c1 q)) = 9%nat)
    by (rewrite length_append in *; exact H9).
  assert (Hd : all_digits (p ++ String c1 (String c2 q)) = true)
    by (now rewrite all_digits_append, !all_digits_cons, Hp, H1, H2, Hq).
  assert (Hd' : all_digits (p ++ String c2 (String c1 q)) = true)
    by (now rewrite all_digits_append, !all_digits_cons, Hp, H1, H2, Hq).
  rewrite isPossibleNubanBank_documented in Hacc by assumption.
  rewrite isPossibleNubanBank_documented by assumption.
  injection Hacc as Hacc. apply strict_eq_Num in Hacc. rewrite Hacc. simpl.
  now rewrite checkDigit_transposition.
Qed.

Lemma serial_transposition_detected_witness :
  isPossibleNubanBank (("01234" ++ String "6" (String "5" "78")) ++ "9") "000015"
                      sampleStatics
  = (Normal false, sampleStatics).
Proof.
  apply (serial_transposition_detected "01234" "78" "9" "000015" "5"%char "6"%char
                                       sampleStatics);
    reflexivity.
Defined.

(** ** Characters that are not digits *)

Lemma Number_of_char_NaN (c : ascii) :
  is_digit c = false -> is_white_space c = false -> Number_of_char c = NaN.
Proof.
  intros H1 H2. unfold Number_of_char. now rewrite H1, H2.
Qed.

Section ReduceNaN.

Variable seed : list number.

Let step (sum : number) (digit : ascii) (index : nat) : number :=
  (sum + operand (nth_error seed index) * Number_of_char digit)%js.

Lemma reduce_from_NaN (l : list ascii) (k : nat) :
  reduce_from step l k NaN = NaN.
Proof.
  revert k; induction l as [|c l IH]; intros k; simpl; [reflexivity | apply IH].
Qed.

(** One character that is not a number makes the whole sum NaN. *)
Lemma reduce_from_poisoned (l : list ascii) (c : ascii) :
  In c l -> Number_of_char c = NaN ->
  forall k acc, reduce_from step l k acc = NaN.
Proof.
  intros Hin Hc. induction l as [|d l IH]; intros k acc; [contradiction|].
  simpl. destruct Hin as [-> | Hin].
  - unfold step at 2. rewrite Hc.
    replace (acc + operand (nth_error seed k) * NaN)%js with NaN.
    + apply reduce_from_NaN.
    + destruct acc, (operand (nth_error seed k)); reflexivity.
  - now apply IH.
Qed.

End ReduceNaN.

Lemma generateCheckDigit_NaN (serial bankCode : string) (c : ascii) (st : Statics) :
  serial <> "" -> (String.length serial <= 9)%nat ->
  In c (list_ascii_of_string bankCode) \/ In c (list_ascii_of_string serial) ->
  is_digit c = false -> is_white_space c = false ->
  generateCheckDigit serial bankCode st = (Normal NaN, st).
Proof.
  intros Hne Hlen Hin H1 H2. unfold generateCheckDigit, bind.
  rewrite (validate_accepts serial st Hne Hlen). unfold generateSeed, ret, reduce, split.
  rewrite (reduce_from_poisoned _ _ c); [reflexivity | | now apply Number_of_char_NaN].
  rewrite padStart_zero. unfold Documented.zero_pad.
  rewrite !list_ascii_of_string_append, !in_app_iff. tauto.
Qed.

(** Nothing is accepted across a character that is neither a digit nor a
    blank: with such a character in the bank code, in the nine characters of
    the serial or in the place of the check digit, isPossibleNubanBank
    returns false. *)
Theorem isPossibleNubanBank_non_numeric (serial rest bankCode : string) (k c : ascii)
        (st : Statics) :
  String.length serial = 9%nat ->
  In c (list_ascii_of_string bankCode) \/ In c (list_ascii_of_string serial) \/ c = k ->
  is_digit c = false -> is_white_space c = false ->
  isPossibleNubanBank (serial ++ String k rest) bankCode st = (Normal false, st).
Proof.
  intros H9 Hin H1 H2. rewrite isPossibleNubanBank_serial by exact H9. unfold bind.
  assert (Hne : serial <> "") by (intros E; rewrite E in H9; discriminate).
  destruct Hin as [Hin | [Hin | ->]].
  - rewrite (generateCheckDigit_NaN serial bankCode c st); try assumption;
      [reflexivity | lia | now left].
  - rewrite (generateCheckDigit_NaN serial bankCode c st); try assumption;
      [reflexivity | lia | now right].
  - destruct (generateCheckDigit_accepts serial bankCode st Hne ltac:(lia)) as [n ->].
    simpl String.get. unfold Number_of_index, ret.
    rewrite (Number_of_char_NaN k H1 H2). now destruct n.
Qed.

Lemma isPossibleNubanBank_non_numeric_witness :
  isPossibleNubanBank ("012345678" ++ String "9" "") "00OO15" sampleStatics
  = (Normal false, sampleStatics).
Proof.
  apply (isPossibleNubanBank_non_numeric "012345678" "" "00OO15" "9"%char "O"%char
                                         sampleStatics);
    try reflexivity.
  left. simpl. tauto.
Defined.

(** ** The weighted table and the bank code formats of the providers *)

(** Every record of the weighted table has a canonical code that Flutterwave
    takes and Paystack refuses, and a legacy code that both take. *)
Theorem weighted_codes_by_provider (key : string) (bank : Bank) :
  In bank WEIGHTED_NIGERIAN_BANKS ->
  validateBankCode (mkNuban key FLUTTERWAVE) (code bank) = true
  /\ validateBankCode (mkNuban key PAYSTACK) (code bank) = false
  /\ exists legacy,
      oldCode bank = Some legacy
      /\ forall provider, validateBankCode (mkNuban key provider) legacy = true.
Proof.
  intros Hin. simpl in Hin.
  repeat (destruct Hin as [<- | Hin];
          [repeat split; eexists; split;
           [reflexivity | intros provider; destruct provider; reflexivity]|]).
  contradiction.
Qed.

Lemma weighted_codes_by_provider_witness :
  validateBankCode (mkNuban "sk_test" FLUTTERWAVE) "000015" = true
  /\ validateBankCode (mkNuban "sk_test" PAYSTACK) "000015" = false
  /\ exists legacy,
      Some "057" = Some legacy
      /\ forall provider, validateBankCode (mkNuban "sk_test" provider) legacy = true.
Proof.
  apply (weighted_codes_by_provider
           "sk_test" (mkBank 31 "zenith_bank" "ZENITH BANK" "000015" (Some "057") (Some 1))).
  simpl. do 30 right. now left.
Defined.

(** ** formatFlutterwaveCardBinResponse *)

Lemma String_split_cons (sep : ascii) (s : string) :
  exists piece pieces, String_split sep s = piece :: pieces /\ has_char sep piece = false.
Proof.
  induction s as [|c s [piece [pieces [IH Hp]]]]; simpl.
  - exists "", []. now split.
  - destruct (Ascii.eqb c sep) eqn:E.
    + exists "", (String_split sep s). now split.
    + rewrite IH. exists (String c piece), pieces. split; [reflexivity|].
      unfold has_char in *. simpl. rewrite Hp, orb_false_r.
      rewrite Ascii.eqb_sym. exact E.
Qed.

Lemma Array_join_cons (sep piece : string) (pieces : list string) :
  Array_join sep (piece :: pieces)
  = match pieces with
    | [] => piece
    | _ :: _ => piece ++ sep ++ Array_join sep pieces
    end.
Proof. now destruct pieces. Qed.

(** [split] then [join] on the same separator gives the string back. *)
Lemma Array_join_String_split (sep : ascii) (s : string) :
  Array_join (String sep "") (String_split sep s) = s.
Proof.
  induction s as [|c s IH]; [reflexivity|].
  destruct (String_split_cons sep s) as [piece [pieces [Hs _]]].
  simpl String_split. destruct (Ascii.eqb_spec c sep) as [-> | Hneq].
  - rewrite Array_join_cons, Hs. rewrite <- Hs, IH. reflexivity.
  - rewrite Hs in *. rewrite Array_join_cons in *.
    destruct pieces; simpl in *; now rewrite IH.
Qed.

Lemma has_char_append (c : ascii) (s t : string) :
  has_char c (s ++ t) = has_char c s || has_char c t.
Proof.
  unfold has_char. now rewrite list_ascii_of_string_append, existsb_app.
Qed.

Lemma String_split_none (sep : ascii) (s : string) :
  has_char sep s = false -> String_split sep s = [s].
Proof.
  unfold has_char. induction s as [|c s IH]; simpl; [reflexivity|].
  intros H. apply orb_false_iff in H as [Hc Hs].
  rewrite Ascii.eqb_sym, Hc. now rewrite (IH Hs).
Qed.

Lemma String_split_at (sep : ascii) (s t : string) :
  has_char sep s = false ->
  String_split sep (s ++ String sep t) = s :: String_split sep t.
Proof.
  unfold has_char. induction s as [|c s IH]; simpl.
  - now rewrite Ascii.eqb_refl.
  - intros H. apply orb_false_iff in H as [Hc Hs].
    rewrite Ascii.eqb_sym, Hc. now rewrite (IH Hs).
Qed.

(** The brand is the first word of [issuer_info] and the bank is all that
    follows the first blank: brand, blank and bank give [issuer_info] back,
    and without a blank the brand is the whole of it and the bank is
    empty. *)
Theorem formatFlutterwaveCardBinResponse_issuer (response : FlutterwaveCardResponse) :
  let out := cb_data (formatFlutterwaveCardBinResponse response) in
  let issuer := issuer_info (fw_data response) in
  has_char " " (brand out) = false
  /\ if has_char " " issuer
     then issuer = brand out ++ " " ++ bank out
     else issuer = brand out /\ bank out = "".
Proof.
  intros out issuer. unfold out, formatFlutterwaveCardBinResponse. simpl.
  fold issuer.
  pose proof (Array_join_String_split " " issuer) as Hjoin.
  destruct (String_split_cons " " issuer) as [piece [pieces [Hs Hp]]].
  rewrite Hs in *. simpl nth. simpl tl. split; [exact Hp|].
  rewrite Array_join_cons in Hjoin. destruct pieces as [|piece' pieces].
  - rewrite <- Hjoin, Hp. now split.
  - assert (Hsp : has_char " " issuer = true).
    { rewrite <- Hjoin, has_char_append.
      replace (has_char " " (" " ++ Array_join " " (piece' :: pieces))) with true
        by reflexivity.
      apply orb_true_r. }
    rewrite Hsp. symmetry. exact Hjoin.
Qed.

(** The country name is the first word of [issuing_country] and the country
    code its second word, whatever follows; a country of one word has no
    code. *)
Theorem formatFlutterwaveCardBinResponse_country (response : FlutterwaveCardResponse) :
  let out := cb_data (formatFlutterwaveCardBinResponse response) in
  let country := issuing_country (fw_data response) in
  (has_char " " country = false ->
   country_name out = country /\ country_code out = None)
  /\ (forall first second rest,
         country = first ++ " " ++ second ++ rest ->
         has_char " " first = false ->
         has_char " " second = false ->
         rest = "" \/ (exists words, rest = " " ++ words) ->
         country_name out = first /\ country_code out = Some second).
Proof.
  intros out country. unfold out, formatFlutterwaveCardBinResponse. simpl.
  fold country. split.
  - intros H. now rewrite (String_split_none _ _ H).
  - intros first second rest -> Hf Hs Hrest.
    change (first ++ " " ++ second ++ rest) with (first ++ String " " (second ++ rest)).
    rewrite (String_split_at _ _ _ Hf). simpl nth. simpl nth_error.
    destruct Hrest as [-> | [words ->]].
    + replace (second ++ "") with second.
      * now rewrite (String_split_none _ _ Hs).
      * clear. induction second as [|c s IH]; simpl; [reflexivity | now rewrite <- IH].
    + change (second ++ " " ++ words) with (second ++ String " " words).
      now rewrite (String_split_at _ _ _ Hs).
Qed.

Lemma formatFlutterwaveCardBinResponse_country_witness :
  let response :=
    mkFlutterwaveCardResponse true "success"
      (mkFlutterwaveCardData "UNITED STATES US" "123456" DEBIT "VISA Access Bank") in
  country_name (cb_data (formatFlutterwaveCardBinResponse response)) = "UNITED"
  /\ country_code (cb_data (formatFlutterwaveCardBinResponse response)) = Some "STATES".
Proof.
  intros response.
  apply (proj2 (formatFlutterwaveCardBinResponse_country response)
               "UNITED" "STATES" " US");
    try reflexivity.
  right. now exists "US".
Defined.
